(** * Laker Racing dashboard controller: a shallow embedding of [main.c]

    The firmware measures engine speed from a tachometer capture, renders it
    on an SK9822 light strip, and drives the paddle-shift relays and the
    7-segment gear display.  Every function of [main.c] that the properties
    below talk about is transcribed here as a function on the firmware's
    global variables and the few memory-mapped registers it writes. *)

From Stdlib Require Import ZArith List Bool Lia.
From Stdlib Require Import Floats.SpecFloat.
Import ListNotations.
Local Open Scope Z_scope.

(** ** Machine integers *)

(** [uint8_t] and [uint16_t] stores keep the low 8, respectively 16, bits. *)
Definition u8 (x : Z) : Z := x mod 256.
Definition u16 (x : Z) : Z := x mod 65536.

(** The C test [if (x & MASK)]. *)
Definition bit_set (x mask : Z) : bool := negb (Z.land x mask =? 0).

(** ** Constants of [main.c] (lines 27-33) *)

Definition BRIGHTNESS : Z := 3.
Definition NUM_GREEN_LEDS : Z := 18.
Definition NUM_YELLOW_LEDS : Z := 6.
Definition NUM_RED_LEDS : Z := 6.
Definition NUM_LEDS : Z := NUM_GREEN_LEDS + NUM_YELLOW_LEDS + NUM_RED_LEDS.
Definition MAX_RPM : Z := 12000.

(** Modelled from the spec: the single-bit masks [BIT0] .. [BIT5] are
    macros of the device header [msp.h], which is not among the sources.
    [BITn] has only bit [n] set: [pinInit] names the paddle and hall
    inputs as pins 6.0-6.2 and 6.4-6.6 with mask [0x77] and the relay
    outputs as pins 8.4-8.6 with mask [0x70], and the handler's own
    literal [0x30] for "all relays off" is [BIT4 | BIT5]. *)
Definition BIT0 : Z := 0x01.
Definition BIT1 : Z := 0x02.
Definition BIT4 : Z := 0x10.
Definition BIT5 : Z := 0x20.

(** ** Global state *)

Definition color : Type := (Z * Z * Z)%type.   (* red, green, blue *)

(* Primitive projections keep evaluation of nested updates linear. *)
Set Primitive Projections.
Record state : Type := mkState {
  lightstrip : list color;     (* uint8_t lightstrip[NUM_LEDS][3] *)
  i : Z;                       (* int i, the shared loop counter *)
  rpm : Z;                     (* uint16_t *)
  ledsON : Z;                  (* uint8_t *)
  rpmCaptureValue : Z;         (* uint16_t *)
  gearIndex : Z;               (* uint8_t, initialised to 1 *)
  LSflash_flag : bool;
  LSflag : bool;
  up_flag : bool;
  down_flag : bool;
  P4OUT : Z;                   (* 7-segment port *)
  P6IFG : Z;                   (* paddle / hall pending-interrupt flags *)
  P8OUT : Z;                   (* relay port: bit 4 up, bit 5 down *)
  TXBUF : list Z               (* bytes loaded into EUSCI_A2->TXBUF, newest first *)
}.
Unset Primitive Projections.

Definition set_lightstrip v s :=
  mkState v (i s) (rpm s) (ledsON s) (rpmCaptureValue s) (gearIndex s)
    (LSflash_flag s) (LSflag s) (up_flag s) (down_flag s)
    (P4OUT s) (P6IFG s) (P8OUT s) (TXBUF s).
Definition set_i v s :=
  mkState (lightstrip s) v (rpm s) (ledsON s) (rpmCaptureValue s) (gearIndex s)
    (LSflash_flag s) (LSflag s) (up_flag s) (down_flag s)
    (P4OUT s) (P6IFG s) (P8OUT s) (TXBUF s).
Definition set_rpm v s :=
  mkState (lightstrip s) (i s) v (ledsON s) (rpmCaptureValue s) (gearIndex s)
    (LSflash_flag s) (LSflag s) (up_flag s) (down_flag s)
    (P4OUT s) (P6IFG s) (P8OUT s) (TXBUF s).
Definition set_ledsON v s :=
  mkState (lightstrip s) (i s) (rpm s) v (rpmCaptureValue s) (gearIndex s)
    (LSflash_flag s) (LSflag s) (up_flag s) (down_flag s)
    (P4OUT s) (P6IFG s) (P8OUT s) (TXBUF s).
Definition set_rpmCaptureValue v s :=
  mkState (lightstrip s) (i s) (rpm s) (ledsON s) v (gearIndex s)
    (LSflash_flag s) (LSflag s) (up_flag s) (down_flag s)
    (P4OUT s) (P6IFG s) (P8OUT s) (TXBUF s).
Definition set_gearIndex v s :=
  mkState (lightstrip s) (i s) (rpm s) (ledsON s) (rpmCaptureValue s) v
    (LSflash_flag s) (LSflag s) (up_flag s) (down_flag s)
    (P4OUT s) (P6IFG s) (P8OUT s) (TXBUF s).
Definition set_LSflash_flag v s :=
  mkState (lightstrip s) (i s) (rpm s) (ledsON s) (rpmCaptureValue s) (gearIndex s)
    v (LSflag s) (up_flag s) (down_flag s)
    (P4OUT s) (P6IFG s) (P8OUT s) (TXBUF s).
Definition set_LSflag v s :=
  mkState (lightstrip s) (i s) (rpm s) (ledsON s) (rpmCaptureValue s) (gearIndex s)
    (LSflash_flag s) v (up_flag s) (down_flag s)
    (P4OUT s) (P6IFG s) (P8OUT s) (TXBUF s).
Definition set_up_flag v s :=
  mkState (lightstrip s) (i s) (rpm s) (ledsON s) (rpmCaptureValue s) (gearIndex s)
    (LSflash_flag s) (LSflag s) v (down_flag s)
    (P4OUT s) (P6IFG s) (P8OUT s) (TXBUF s).
Definition set_down_flag v s :=
  mkState (lightstrip s) (i s) (rpm s) (ledsON s) (rpmCaptureValue s) (gearIndex s)
    (LSflash_flag s) (LSflag s) (up_flag s) v
    (P4OUT s) (P6IFG s) (P8OUT s) (TXBUF s).
Definition set_P4OUT v s :=
  mkState (lightstrip s) (i s) (rpm s) (ledsON s) (rpmCaptureValue s) (gearIndex s)
    (LSflash_flag s) (LSflag s) (up_flag s) (down_flag s)
    v (P6IFG s) (P8OUT s) (TXBUF s).
Definition set_P6IFG v s :=
  mkState (lightstrip s) (i s) (rpm s) (ledsON s) (rpmCaptureValue s) (gearIndex s)
    (LSflash_flag s) (LSflag s) (up_flag s) (down_flag s)
    (P4OUT s) v (P8OUT s) (TXBUF s).
Definition set_P8OUT v s :=
  mkState (lightstrip s) (i s) (rpm s) (ledsON s) (rpmCaptureValue s) (gearIndex s)
    (LSflash_flag s) (LSflag s) (up_flag s) (down_flag s)
    (P4OUT s) (P6IFG s) v (TXBUF s).
Definition set_TXBUF v s :=
  mkState (lightstrip s) (i s) (rpm s) (ledsON s) (rpmCaptureValue s) (gearIndex s)
    (LSflash_flag s) (LSflag s) (up_flag s) (down_flag s)
    (P4OUT s) (P6IFG s) (P8OUT s) v.

(** ** A small error monad

    [None] stands for an execution whose behaviour C leaves undefined (an
    out-of-range floating-point conversion) or for a loop that has used up
    its fuel. *)

Definition bind {A B : Type} (m : option A) (k : A -> option B) : option B :=
  match m with
  | Some a => k a
  | None => None
  end.

Notation "x <- m ;; k" := (bind m (fun x => k))
  (at level 61, m at next level, right associativity).

(** [while (cond) body], bounded by [fuel] iterations. *)
Fixpoint while (fuel : nat) (cond : state -> bool) (body : state -> state)
    (s : state) : option state :=
  match fuel with
  | O => None
  | S fuel' => if cond s then while fuel' cond body (body s) else Some s
  end.

(** Fuel given to every loop; none of them runs more than 256 times. *)
Definition loop_fuel : nat := 512.

(** [for (i = 0; cond; i++) body] over the global counter [i]. *)
Definition for_i (cond : state -> bool) (body : state -> state)
    (s : state) : option state :=
  while loop_fuel cond (fun s1 => let s2 := body s1 in set_i (i s2 + 1) s2)
    (set_i 0 s).

(** ** Gear display tables (lines 55-56) *)

Definition gearON : list Z :=
  [0x77; 0x05; 0xB3; 0xA7; 0xC5; 0xE6; 0xF6; 0x07; 0xF7; 0xE7].
Definition gearOFF : list Z :=
  [0x88; 0xFA; 0x4C; 0x58; 0x3A; 0x19; 0x09; 0xF8; 0x08; 0x18].

(** Array read [tbl[g]]. *)
Definition at_index (tbl : list Z) (g : Z) : Z := nth (Z.to_nat g) tbl 0.

(** ** Shift interlock: [PORT6_IRQHandler] (lines 322-346) *)

Definition PORT6_IRQHandler (s : state) : state :=
  let s1 :=
    if bit_set (P6IFG s) BIT0 then                       (* up paddle *)
      let s' := set_P8OUT (u8 (Z.lor (P8OUT s) BIT4)) s in
      set_P8OUT (u8 (Z.land (P8OUT s') (Z.lnot BIT5))) s'
    else if bit_set (P6IFG s) BIT1 then                  (* down paddle *)
      let s' := set_P8OUT (u8 (Z.lor (P8OUT s) BIT5)) s in
      set_P8OUT (u8 (Z.land (P8OUT s') (Z.lnot BIT4))) s'
    else if bit_set (P6IFG s) BIT4 then                  (* up hall effect *)
      let s' := set_P8OUT (u8 (Z.land (P8OUT s) (Z.lnot 0x30))) s in
      set_up_flag true s'
    else if bit_set (P6IFG s) BIT5 then                  (* down hall effect *)
      let s' := set_P8OUT (u8 (Z.land (P8OUT s) (Z.lnot 0x30))) s in
      set_down_flag true s'
    else s in
  set_P6IFG (u8 (Z.land (P6IFG s1) (Z.lnot 0xFF))) s1.

(** The relay state read off the two relay output bits.  [None] is the
    forbidden combination with both actuators driven. *)
Inductive RelayState : Type := Idle | UpRelayEngaged | DownRelayEngaged.

Definition relay_of (p8 : Z) : option RelayState :=
  match bit_set p8 BIT4, bit_set p8 BIT5 with
  | false, false => Some Idle
  | true, false => Some UpRelayEngaged
  | false, true => Some DownRelayEngaged
  | true, true => None
  end.

(** The four logical edge signals, and the one the handler's if / else-if
    chain services for a given value of [P6IFG]. *)
Inductive signal : Type :=
  UpPaddlePulled | DownPaddlePulled | UpShiftConfirmed | DownShiftConfirmed.

Definition serviced (ifg : Z) : option signal :=
  if bit_set ifg BIT0 then Some UpPaddlePulled
  else if bit_set ifg BIT1 then Some DownPaddlePulled
  else if bit_set ifg BIT4 then Some UpShiftConfirmed
  else if bit_set ifg BIT5 then Some DownShiftConfirmed
  else None.

(** The pending bit of each signal's input line. *)
Definition line_of (g : signal) : Z :=
  match g with
  | UpPaddlePulled => BIT0
  | DownPaddlePulled => BIT1
  | UpShiftConfirmed => BIT4
  | DownShiftConfirmed => BIT5
  end.

(** ** Timer handlers (lines 306-320) *)

Definition TA1_0_IRQHandler (s : state) : state :=
  set_LSflash_flag (negb (LSflash_flag s)) s.

(** [ccr] is the value latched in [TIMER_A0->CCR[0]] by the capture. *)
Definition TA0_0_IRQHandler (ccr : Z) (s : state) : state :=
  set_LSflag true (set_rpmCaptureValue (u16 ccr) s).

(** ** LED strip driver (lines 234-267) *)

(** The busy-wait on the transmit flag is taken to end; the byte is then
    loaded into the transmit buffer. *)
Definition sendSPIbyte (b : Z) (s : state) : state :=
  set_TXBUF (u8 b :: TXBUF s) s.

Definition sendLS_START (s : state) : state :=
  sendSPIbyte 0 (sendSPIbyte 0 (sendSPIbyte 0 (sendSPIbyte 0 s))).

Definition sendLS (red green blue : Z) (s : state) : state :=
  sendSPIbyte red
    (sendSPIbyte green
      (sendSPIbyte blue
        (sendSPIbyte (224 + BRIGHTNESS) s))).

Definition clearLS (s : state) : option state :=
  for_i (fun s1 => i s1 <=? NUM_LEDS)
    (fun s1 =>
       sendSPIbyte 0 (sendSPIbyte 0 (sendSPIbyte 0 (sendSPIbyte 224 s1))))
    (sendLS_START s).

(** ** RPM conversion (lines 271-276)

    The C expression is
    [(uint16_t)((750000.0 * 60.0) / ((float)rpmCaptureValue * 8.0))]:
    the capture value is converted to binary32, promoted to binary64,
    multiplied and divided in binary64, and the quotient is converted to
    [uint16_t], which discards the fraction.  The IEEE operations are those
    of the Standard Library's [SpecFloat]. *)

Definition double_of_Z (n : Z) : spec_float := binary_normalize 53 1024 n 0 false.
Definition float_of_Z (n : Z) : spec_float := binary_normalize 24 128 n 0 false.

Definition double_of_float (x : spec_float) : spec_float :=
  match x with
  | S754_finite sg m e => binary_round 53 1024 sg m e
  | _ => x
  end.

(** The integral part of a finite float, toward zero. *)
Definition SFtrunc (x : spec_float) : option Z :=
  match x with
  | S754_zero _ => Some 0
  | S754_finite sg m e =>
      let a := match e with
               | Zneg p => Z.shiftr (Zpos m) (Zpos p)
               | _ => Z.shiftl (Zpos m) e
               end in
      Some (if sg then - a else a)
  | _ => None
  end.

(** Conversion to [uint16_t]: undefined in C when the integral part is
    not representable. *)
Definition double_to_uint16 (x : spec_float) : option Z :=
  n <- SFtrunc x ;;
  if (0 <=? n) && (n <=? 65535) then Some n else None.

(** [(750000.0 * 60.0) / ((float)t * 8.0)], before the cast. *)
Definition quotient (t : Z) : spec_float :=
  SFdiv 53 1024
    (SFmul 53 1024 (double_of_Z 750000) (double_of_Z 60))
    (SFmul 53 1024 (double_of_float (float_of_Z t)) (double_of_Z 8)).

Definition rpm_of_capture (t : Z) : option Z :=
  if t =? 0 then Some 0 else double_to_uint16 (quotient t).

(** ** Shift-zone renderer: [rpmtoLS] (lines 269-304) *)

Definition led_at (s : state) : color :=
  nth (Z.to_nat (i s)) (lightstrip s) (0, 0, 0).

(** Line 278: the number of LEDs to light, stored in a [uint8_t]. *)
Definition litCount (speed : Z) : Z :=
  u8 (Z.quot (speed * NUM_LEDS) (MAX_RPM - 1500)).

(** Lines 278-304: everything after the conversion. *)
Definition rpmtoLS_render (s : state) : option state :=
  let s1 := set_ledsON (litCount (rpm s)) s in
  s2 <- clearLS s1 ;;
  if NUM_LEDS <? ledsON s2 then
    if LSflash_flag s2 then
      for_i (fun s3 => i s3 <? NUM_LEDS) (sendLS 255 0 0) (sendLS_START s2)
    else clearLS s2
  else
    for_i (fun s3 => i s3 <? ledsON s3)
      (fun s3 => let '(r, g, b) := led_at s3 in sendLS r g b s3)
      (sendLS_START s2).

Definition rpmtoLS (s : state) : option state :=
  r <- rpm_of_capture (rpmCaptureValue s) ;;
  rpmtoLS_render (set_rpm r s).

(** ** [main] (lines 58-103) *)

Fixpoint upd_nth {A : Type} (n : nat) (v : A) (l : list A) : list A :=
  match l, n with
  | [], _ => []
  | _ :: l', O => v :: l'
  | x :: l', S n' => x :: upd_nth n' v l'
  end.

Definition set_led (c : color) (s : state) : state :=
  set_lightstrip (upd_nth (Z.to_nat (i s)) c (lightstrip s)) s.

(** Lines 66-82: load the colour bands. *)
Definition load_colors (s : state) : option state :=
  for_i (fun s1 => i s1 <? NUM_LEDS)
    (fun s1 =>
       if i s1 <? NUM_GREEN_LEDS then set_led (0, 255, 0) s1
       else if (i s1 <? NUM_GREEN_LEDS + NUM_YELLOW_LEDS)
               && (NUM_GREEN_LEDS <=? i s1) then set_led (255, 255, 0) s1
       else set_led (255, 0, 0) s1)
    s.

(** The writes of [pinInit] to the three ports modelled here
    (lines 146, 157, 168). *)
Definition pinInit (s : state) : state :=
  let s1 := set_P4OUT (u8 (Z.land (P4OUT s) (Z.lnot 0xFF))) s in
  let s2 := set_P6IFG (u8 (Z.land (P6IFG s1) (Z.lnot 0xFF))) s1 in
  set_P8OUT (u8 (Z.land (P8OUT s2) (Z.lnot 0x70))) s2.

(** The globals as the C runtime sets them up; the three port registers
    hold whatever they hold at power-on. *)
Definition power_on (p4 p6 p8 : Z) : state :=
  mkState (repeat (0, 0, 0) (Z.to_nat NUM_LEDS)) 0 0 0 0 1
    false false false false (u8 p4) (u8 p6) (u8 p8) [].

Definition main_startup (s : state) : option state := load_colors (pinInit s).

(** Lines 90-101: the gear part of the loop body. *)
Definition gear_update (s : state) : state :=
  if up_flag s && (gearIndex s <? 6) then
    let s1 := set_gearIndex (u8 (gearIndex s + 1)) s in
    let s2 := set_P4OUT (u8 (Z.lor (P4OUT s1) (at_index gearON (gearIndex s1)))) s1 in
    let s3 := set_P4OUT
                (u8 (Z.land (P4OUT s2) (Z.lnot (at_index gearOFF (gearIndex s2))))) s2 in
    set_up_flag false s3
  else if down_flag s && (1 <? gearIndex s) then
    let s1 := set_gearIndex (u8 (gearIndex s - 1)) s in
    let s2 := set_P4OUT (u8 (Z.lor (P4OUT s1) (at_index gearON (gearIndex s1)))) s1 in
    let s3 := set_P4OUT
                (u8 (Z.land (P4OUT s2) (Z.lnot (at_index gearOFF (gearIndex s2))))) s2 in
    set_down_flag false s3
  else s.

(** One pass through the body of [while (1)] (lines 86-101). *)
Definition main_loop_body (s : state) : option state :=
  s1 <- (if LSflag s then
           s' <- rpmtoLS s ;; Some (set_LSflag false s')
         else Some s) ;;
  Some (gear_update s1).

(** ** Runs of the controller

    The main loop and the three interrupt handlers interleave; a run is a
    sequence of events, each handled to completion. *)
Inductive event : Type :=
| Port6Edge (lines : Z)     (* falling edges latched on port 6, handler runs *)
| TachCapture (ccr : Z)     (* tachometer edge, capture value [ccr] *)
| FlashTick                 (* flash timer compare *)
| MainIteration.            (* one pass of the main loop body *)

Definition step (e : event) (s : state) : option state :=
  match e with
  | Port6Edge lines =>
      Some (PORT6_IRQHandler (set_P6IFG (Z.lor (P6IFG s) (u8 lines)) s))
  | TachCapture ccr => Some (TA0_0_IRQHandler ccr s)
  | FlashTick => Some (TA1_0_IRQHandler s)
  | MainIteration => main_loop_body s
  end.

Fixpoint run (evs : list event) (s : state) : option state :=
  match evs with
  | [] => Some s
  | e :: evs' => s' <- step e s ;; run evs' s'
  end.

(** [count_along p evs s]: how many events of the run from [s] satisfy
    [p] in the state they are handled in. *)
Fixpoint count_along (p : event -> state -> bool) (evs : list event)
    (s : state) : nat :=
  match evs with
  | [] => O
  | e :: evs' =>
      ((if p e s then 1 else 0)
       + match step e s with
         | Some s' => count_along p evs' s'
         | None => 0
         end)%nat
  end.

(** The event changes the displayed gear. *)
Definition changes_gear (e : event) (s : state) : bool :=
  match step e s with
  | Some s' => negb (gearIndex s' =? gearIndex s)
  | None => false
  end.

(** The event is a hall-sensor confirmation that the handler services. *)
Definition is_confirmation (e : event) (s : state) : bool :=
  match e with
  | Port6Edge lines =>
      match serviced (Z.lor (P6IFG s) (u8 lines)) with
      | Some UpShiftConfirmed | Some DownShiftConfirmed => true
      | _ => false
      end
  | _ => false
  end.

(** The state in which [main] enters its loop. *)
Definition LedZoneTable : list color :=
  repeat (0, 255, 0) 18 ++ repeat (255, 255, 0) 6 ++ repeat (255, 0, 0) 6.

Definition init_state (p8 : Z) : state :=
  mkState LedZoneTable NUM_LEDS 0 0 0 1 false false false false
    0 0 (u8 (Z.land (u8 p8) (Z.lnot 0x70))) [].

(** ** The strip as the driver's bytes address it

    Four-byte frames: the all-zero start frame resets the strip's frame
    pointer; a frame whose first byte has the three high bits set carries
    blue, green, red for the LED at the pointer, which then advances.
    Frames past the last LED fall off the end of the strip. *)
Record strip : Type := mkStrip { leds : list color; ptr : nat }.

Definition strip_frame (h b g r : Z) (st : strip) : strip :=
  if (h =? 0) && (b =? 0) && (g =? 0) && (r =? 0) then mkStrip (leds st) 0
  else if 224 <=? h then mkStrip (upd_nth (ptr st) (r, g, b) (leds st)) (S (ptr st))
  else st.

Fixpoint strip_feed (bytes : list Z) (st : strip) : strip :=
  match bytes with
  | h :: b :: g :: r :: rest => strip_feed rest (strip_frame h b g r st)
  | _ => st
  end.

Definition lit (c : color) : bool :=
  let '(r, g, b) := c in negb ((r =? 0) && (g =? 0) && (b =? 0)).

(** The bytes of one LED frame and of the start frame, in wire order. *)
Definition led_frame (h : Z) (c : color) : list Z :=
  let '(r, g, b) := c in [h; b; g; r].
Definition start_frame : list Z := [0; 0; 0; 0].

(** ** Vocabulary of the properties *)

(** The relay state the handler leaves, as a function of the state it
    finds and of the line it services. *)
Definition next_relay (r : RelayState) (g : option signal) : RelayState :=
  match g with
  | Some UpPaddlePulled => UpRelayEngaged
  | Some DownPaddlePulled => DownRelayEngaged
  | Some UpShiftConfirmed | Some DownShiftConfirmed => Idle
  | None => r
  end.

(** The state after an up-paddle pull from the initial state. *)
Definition up_engaged : state :=
  PORT6_IRQHandler (set_P6IFG BIT0 (init_state 0)).

(** What the interlock and the gear display own. *)
Definition gear_view (s : state) : Z * bool * bool * Z * Z * Z :=
  (gearIndex s, up_flag s, down_flag s, P4OUT s, P6IFG s, P8OUT s).

(** Confirmations latched by the handler and not yet shown. *)
Definition pending (s : state) : nat :=
  (Nat.b2n (up_flag s) + Nat.b2n (down_flag s))%nat.

(** What one event may do to the displayed gear. *)
Definition gear_step_ok (e : event) (s s' : state) : Prop :=
  1 <= gearIndex s' <= 6 /\
  Z.abs (gearIndex s' - gearIndex s) <= 1 /\
  (gearIndex s' <> gearIndex s ->
   e = MainIteration /\
   ((up_flag s = true /\ gearIndex s' = gearIndex s + 1) \/
    (down_flag s = true /\ gearIndex s' = gearIndex s - 1))) /\
  (Nat.b2n (negb (Z.eqb (gearIndex s') (gearIndex s))) + pending s'
   <= pending s + Nat.b2n (is_confirmation e s))%nat.

(** The state after a down-paddle pull from the initial state. *)
Definition down_engaged : state :=
  PORT6_IRQHandler (set_P6IFG BIT1 (init_state 0)).

(** The state after an up-paddle pull and the up-shift confirmation. *)
Definition up_confirmed : state :=
  PORT6_IRQHandler (set_P6IFG BIT4 up_engaged).

(** Five confirmed up-shifts from the initial state reach gear 6. *)
Definition to_top_gear : list event :=
  concat (repeat [Port6Edge BIT4; MainIteration] 5).

(** What [clearLS] puts on the wire. *)
Definition clear_bytes : list Z :=
  start_frame ++ concat (repeat (led_frame 224 (0, 0, 0)) 31).

(** The bytes of the all-red pattern. *)
Definition red_bytes : list Z :=
  start_frame ++ concat (repeat (led_frame 227 (255, 0, 0)) 30).

(** One LED frame as [sendLS] emits it. *)
Definition wire (c : color) : list Z :=
  let '(r, g, b) := c in [u8 (224 + BRIGHTNESS); u8 b; u8 g; u8 r].

(** Body and increment of the bar-graph loop (lines 299-302). *)
Definition bar_body (s1 : state) : state :=
  let s2 := (let '(r, g, b) := led_at s1 in sendLS r g b s1) in
  set_i (i s2 + 1) s2.

(** [l] with the colours [cs] written from position [p] on; writes past
    the end of [l] are dropped. *)
Fixpoint write_from (p : nat) (cs l : list color) : list color :=
  match cs with
  | [] => l
  | c :: cs' => write_from (S p) cs' (upd_nth p c l)
  end.

(** The bytes of a bar of [k] LEDs. *)
Definition bar_bytes (k : nat) : list Z :=
  start_frame ++ concat (map (led_frame 227) (firstn k LedZoneTable)).

(** [r] is an integer nearest to the exact quotient [a / b]. *)
Definition nearest_integer (a b r : Z) : Prop := 2 * Z.abs (r * b - a) <= b.

(** A capture the conversion is defined for. *)
Definition capture_ok (t : Z) : bool := (t =? 0) || (86 <=? t).

(** An event whose capture, if it is one, the conversion is defined for. *)
Definition event_ok (e : event) : bool :=
  match e with
  | TachCapture ccr => capture_ok (u16 ccr)
  | _ => true
  end.

(** ** Further vocabulary: statements about the rest of the behaviour *)

(** The values [PORT6_IRQHandler] stores to [P8OUT], in program order
    (lines 326-327, 331-332, 336 and 341): each paddle branch stores
    twice, each hall branch once. *)
Definition PORT6_P8OUT_stores (s : state) : list Z :=
  if bit_set (P6IFG s) BIT0 then
    let p1 := u8 (Z.lor (P8OUT s) BIT4) in
    [p1; u8 (Z.land p1 (Z.lnot BIT5))]
  else if bit_set (P6IFG s) BIT1 then
    let p1 := u8 (Z.lor (P8OUT s) BIT5) in
    [p1; u8 (Z.land p1 (Z.lnot BIT4))]
  else if bit_set (P6IFG s) BIT4 then [u8 (Z.land (P8OUT s) (Z.lnot 0x30))]
  else if bit_set (P6IFG s) BIT5 then [u8 (Z.land (P8OUT s) (Z.lnot 0x30))]
  else [].

(** A byte. *)
Definition is_byte (b : Z) : bool := (0 <=? b) && (b <? 256).

(** A byte stream made of whole four-byte frames, each the start frame or
    an LED frame: header 224 (as [clearLS] sends) or 224 + BRIGHTNESS (as
    [sendLS] sends) followed by three bytes. *)
Fixpoint frames_ok (bytes : list Z) : bool :=
  match bytes with
  | [] => true
  | h :: b :: g :: r :: rest =>
      (((h =? 0) && (b =? 0) && (g =? 0) && (r =? 0))
       || (((h =? 224) || (h =? 224 + BRIGHTNESS))
           && is_byte b && is_byte g && is_byte r))
      && frames_ok rest
  | _ => false
  end.

(** The bytes one call of [rpmtoLS] sends, for the colour table [tbl],
    the flash flag and the LED count [k]. *)
Definition render_bytes (tbl : list color) (flash : bool) (k : Z) : list Z :=
  clear_bytes ++
  (if NUM_LEDS <? k then if flash then red_bytes else clear_bytes
   else start_frame ++
        concat (map (fun j => wire (nth j tbl (0, 0, 0))) (seq 0 (Z.to_nat k)))).

(** The event is not a port-6 interrupt. *)
Definition not_port6 (e : event) : bool :=
  match e with
  | Port6Edge _ => false
  | _ => true
  end.

(** A confirmed up-shift and a confirmed down-shift as the main loop sees
    them: the hall-sensor interrupt, then one pass of the loop. *)
Definition upshift : list event := [Port6Edge BIT4; MainIteration].
Definition downshift : list event := [Port6Edge BIT5; MainIteration].

(** What holds of the data in every state the controller reaches. *)
Definition state_ok (s : state) : Prop :=
  lightstrip s = LedZoneTable /\
  P6IFG s = 0 /\
  ledsON s = litCount (rpm s) /\
  0 <= rpm s <= 65535 /\
  0 <= rpmCaptureValue s <= 65535 /\
  1 <= gearIndex s <= 6 /\
  (P4OUT s = at_index gearON (gearIndex s) \/ (P4OUT s = 0 /\ gearIndex s = 1)) /\
  frames_ok (rev (TXBUF s)) = true.

(** The event is a tachometer capture, respectively a flash-timer tick. *)
Definition is_tach (e : event) : bool :=
  match e with
  | TachCapture _ => true
  | _ => false
  end.

Definition is_flash (e : event) : bool :=
  match e with
  | FlashTick => true
  | _ => false
  end.

(** The event is a pass of the main loop that calls the renderer. *)
Definition renders (e : event) (s : state) : bool :=
  match e with
  | MainIteration => LSflag s
  | _ => false
  end.

(** How many events of a run satisfy [p]. *)
Definition count (p : event -> bool) (evs : list event) : nat :=
  length (filter p evs).

(** The colour of LED [j] in the table [main] loads. *)
Definition zone_color (j : nat) : color :=
  if (j <? 18)%nat then (0, 255, 0)
  else if (j <? 24)%nat then (255, 255, 0)
  else (255, 0, 0).

(** ** All the port registers [pinInit] writes (lines 121-173)

    Every statement of [pinInit] is a read-modify-write of one 8-bit port
    register: [r |= m] or [r &= ~m]. *)
Module Pins.

Inductive reg : Type :=
| P1SEL0 | P1SEL1 | P1DIR
| P2SEL0 | P2SEL1
| P3SEL0 | P3SEL1
| P4SEL0 | P4SEL1 | P4DIR | P4OUT
| P5SEL0 | P5SEL1
| P6SEL0 | P6SEL1 | P6DIR | P6IES | P6IFG | P6IE
| P7SEL0 | P7SEL1 | P7DIR | P7OUT
| P8SEL0 | P8SEL1 | P8DIR | P8OUT
| P9SEL0 | P9SEL1.

Definition reg_eq_dec (a b : reg) : {a = b} + {a <> b}.
Proof. decide equality. Defined.

(** The contents of the port registers. *)
Definition regs : Type := reg -> Z.

Definition upd (rf : regs) (r : reg) (v : Z) : regs :=
  fun r' => if reg_eq_dec r r' then v else rf r'.

Inductive stmt : Type :=
| OrEq (r : reg) (m : Z)       (* r |= m *)
| AndNotEq (r : reg) (m : Z).  (* r &= ~m *)

Definition exec (rf : regs) (c : stmt) : regs :=
  match c with
  | OrEq r m => upd rf r (u8 (Z.lor (rf r) m))
  | AndNotEq r m => upd rf r (u8 (Z.land (rf r) (Z.lnot m)))
  end.

(** Lines 123-172, in program order. *)
Definition pinInit_body : list stmt :=
  [ OrEq P1SEL0 0x0C; AndNotEq P1SEL1 0x0C;
    AndNotEq P1SEL0 0x01; AndNotEq P1SEL1 0x01; OrEq P1DIR 0x01;
    OrEq P2SEL0 0x0E; AndNotEq P2SEL1 0x0E;
    AndNotEq P7SEL0 0x10; AndNotEq P7SEL1 0x10;
    OrEq P7DIR 0x10; AndNotEq P7OUT 0x10;
    OrEq P3SEL0 0xCA; AndNotEq P3SEL1 0xCA;
    AndNotEq P4SEL0 0xFF; AndNotEq P4SEL1 0xFF;
    OrEq P4DIR 0xFF; AndNotEq P4OUT 0xFF;
    OrEq P5SEL0 0x20; OrEq P5SEL1 0x20;
    AndNotEq P6SEL0 0x77; AndNotEq P6SEL1 0x77; AndNotEq P6DIR 0x77;
    OrEq P6IES 0x77; AndNotEq P6IFG 0xFF; OrEq P6IE 0x77;
    OrEq P7SEL0 0x08; AndNotEq P7SEL1 0x08;
    AndNotEq P8SEL0 0x70; AndNotEq P8SEL1 0x70;
    OrEq P8DIR 0x70; AndNotEq P8OUT 0x70;
    OrEq P9SEL0 0xC0; AndNotEq P9SEL1 0xC0 ].

Definition pinInit (rf : regs) : regs := fold_left exec pinInit_body rf.

(** The bits [pinInit] leaves high and the bits it leaves low, per
    register. *)
Definition forced (r : reg) : Z * Z :=
  match r with
  | P1SEL0 => (0x0C, 0x01) | P1SEL1 => (0, 0x0D) | P1DIR => (0x01, 0)
  | P2SEL0 => (0x0E, 0) | P2SEL1 => (0, 0x0E)
  | P3SEL0 => (0xCA, 0) | P3SEL1 => (0, 0xCA)
  | P4SEL0 => (0, 0xFF) | P4SEL1 => (0, 0xFF)
  | P4DIR => (0xFF, 0) | P4OUT => (0, 0xFF)
  | P5SEL0 => (0x20, 0) | P5SEL1 => (0x20, 0)
  | P6SEL0 => (0, 0x77) | P6SEL1 => (0, 0x77) | P6DIR => (0, 0x77)
  | P6IES => (0x77, 0) | P6IFG => (0, 0xFF) | P6IE => (0x77, 0)
  | P7SEL0 => (0x08, 0x10) | P7SEL1 => (0, 0x18)
  | P7DIR => (0x10, 0) | P7OUT => (0, 0x10)
  | P8SEL0 => (0, 0x70) | P8SEL1 => (0, 0x70)
  | P8DIR => (0x70, 0) | P8OUT => (0, 0x70)
  | P9SEL0 => (0xC0, 0) | P9SEL1 => (0, 0xC0)
  end.

End Pins.

(** * Properties *)

(** ** Bit-level facts *)

Lemma bit_set_pow2 (x n : Z) : 0 <= n -> bit_set x (2 ^ n) = Z.testbit x n.
Proof.
  intros Hn. unfold bit_set.
  destruct (Z.testbit x n) eqn:Hb.
  - destruct (Z.eqb_spec (Z.land x (2 ^ n)) 0) as [E|]; [|reflexivity].
    assert (H : Z.testbit (Z.land x (2 ^ n)) n = true)
      by (rewrite Z.land_spec, Hb, Z.pow2_bits_true; auto).
    rewrite E, Z.bits_0 in H. discriminate.
  - replace (Z.land x (2 ^ n)) with 0; [reflexivity|].
    symmetry. apply Z.bits_inj'. intros k Hk.
    rewrite Z.land_spec, Z.bits_0, Z.pow2_bits_eqb by assumption.
    destruct (Z.eqb_spec n k); subst; [rewrite Hb|]; auto using andb_false_r.
Qed.

Lemma testbit_u8 (x k : Z) : 0 <= k < 8 -> Z.testbit (u8 x) k = Z.testbit x k.
Proof. intros. unfold u8. change 256 with (2 ^ 8). apply Z.mod_pow2_bits_low. lia. Qed.

Lemma u8_range (x : Z) : 0 <= u8 x < 256.
Proof. unfold u8. apply Z.mod_pos_bound. lia. Qed.

Lemma u8_small (x : Z) : 0 <= x < 256 -> u8 x = x.
Proof. intros. unfold u8. apply Z.mod_small. assumption. Qed.

Lemma u8_clear_all (x : Z) : u8 (Z.land x (Z.lnot 0xFF)) = 0.
Proof.
  unfold u8. change 256 with (2 ^ 8). apply Z.bits_inj'. intros k Hk.
  rewrite Z.bits_0. destruct (Z.ltb_spec k 8).
  - rewrite Z.mod_pow2_bits_low, Z.land_spec, Z.lnot_spec by lia.
    change 0xFF with (Z.ones 8). rewrite Z.ones_spec_low by lia.
    apply andb_false_r.
  - apply Z.mod_pow2_bits_high. lia.
Qed.

Lemma bit_set_BIT0 x : bit_set x BIT0 = Z.testbit x 0.
Proof. apply (bit_set_pow2 x 0). lia. Qed.
Lemma bit_set_BIT1 x : bit_set x BIT1 = Z.testbit x 1.
Proof. apply (bit_set_pow2 x 1). lia. Qed.
Lemma bit_set_BIT4 x : bit_set x BIT4 = Z.testbit x 4.
Proof. apply (bit_set_pow2 x 4). lia. Qed.
Lemma bit_set_BIT5 x : bit_set x BIT5 = Z.testbit x 5.
Proof. apply (bit_set_pow2 x 5). lia. Qed.

Ltac bits :=
  repeat first
    [ rewrite bit_set_BIT0 | rewrite bit_set_BIT1
    | rewrite bit_set_BIT4 | rewrite bit_set_BIT5
    | rewrite testbit_u8 by lia
    | rewrite Z.land_spec | rewrite Z.lor_spec
    | rewrite Z.lnot_spec by lia ].

Lemma relay_after_up (p : Z) :
  relay_of (u8 (Z.land (u8 (Z.lor p BIT4)) (Z.lnot BIT5))) = Some UpRelayEngaged.
Proof.
  unfold relay_of. bits. 
  change (Z.testbit BIT4 4) with true. change (Z.testbit BIT5 4) with false.
  change (Z.testbit BIT5 5) with true. 
  rewrite orb_true_r, andb_false_r. reflexivity.
Qed.

Lemma relay_after_down (p : Z) :
  relay_of (u8 (Z.land (u8 (Z.lor p BIT5)) (Z.lnot BIT4))) = Some DownRelayEngaged.
Proof.
  unfold relay_of. bits.
  change (Z.testbit BIT5 5) with true. change (Z.testbit BIT5 4) with false.
  change (Z.testbit BIT4 4) with true. change (Z.testbit BIT4 5) with false.
  rewrite orb_true_r, andb_false_r. reflexivity.
Qed.

Lemma relay_after_off (p : Z) : relay_of (u8 (Z.land p (Z.lnot 0x30))) = Some Idle.
Proof.
  unfold relay_of. bits.
  change (Z.testbit 0x30 4) with true. change (Z.testbit 0x30 5) with true.
  rewrite !andb_false_r. reflexivity.
Qed.

Lemma relay_step (s : state) (r : RelayState) :
  relay_of (P8OUT s) = Some r ->
  relay_of (P8OUT (PORT6_IRQHandler s)) = Some (next_relay r (serviced (P6IFG s))).
Proof.
  intros Hr. unfold PORT6_IRQHandler, serviced.
  destruct (bit_set (P6IFG s) BIT0); cbn [P8OUT set_P6IFG set_P8OUT next_relay].
  { apply relay_after_up. }
  destruct (bit_set (P6IFG s) BIT1); cbn [P8OUT set_P6IFG set_P8OUT next_relay].
  { apply relay_after_down. }
  destruct (bit_set (P6IFG s) BIT4);
    cbn [P8OUT set_P6IFG set_P8OUT set_up_flag next_relay].
  { apply relay_after_off. }
  destruct (bit_set (P6IFG s) BIT5);
    cbn [P8OUT set_P6IFG set_P8OUT set_down_flag next_relay].
  { apply relay_after_off. }
  exact Hr.
Qed.

Lemma relay_after_init (p8 : Z) : relay_of (P8OUT (init_state p8)) = Some Idle.
Proof.
  cbn [P8OUT init_state]. unfold relay_of. bits.
  change (Z.testbit 0x70 4) with true. change (Z.testbit 0x70 5) with true.
  rewrite !andb_false_r. reflexivity.
Qed.

Lemma relay_some_exclusive (p r : _) :
  relay_of p = Some r -> bit_set p BIT4 && bit_set p BIT5 = false.
Proof.
  unfold relay_of.
  destruct (bit_set p BIT4), (bit_set p BIT5); intros H;
    solve [reflexivity | discriminate H].
Qed.

(** ** The shift interlock (C1, C3, C9) *)

(** C1, as stated, does not hold: with the up relay engaged, the
    down-shift hall sensor (the confirmation that does not match) also
    returns the relays to Idle. *)
Lemma other_confirmation_releases :
  relay_of (P8OUT up_engaged) = Some UpRelayEngaged /\
  serviced (P6IFG (set_P6IFG BIT5 up_engaged)) = Some DownShiftConfirmed /\
  relay_of (P8OUT (PORT6_IRQHandler (set_P6IFG BIT5 up_engaged))) = Some Idle.
Proof. repeat split; reflexivity. Qed.

(** C1 (amended): from Idle only a paddle pull moves the relays, an
    up-paddle pull to up-engaged and a down-paddle pull to down-engaged;
    from an engaged state the relays return to Idle exactly when the handler
    services a hall-sensor confirmation, the matching one or the other. *)
Theorem interlock_transitions (s : state) (r : RelayState) :
  relay_of (P8OUT s) = Some r ->
  let r' := relay_of (P8OUT (PORT6_IRQHandler s)) in
  let g := serviced (P6IFG s) in
  (r = Idle ->
     (r' <> Some Idle <-> g = Some UpPaddlePulled \/ g = Some DownPaddlePulled)
     /\ (g = Some UpPaddlePulled -> r' = Some UpRelayEngaged)
     /\ (g = Some DownPaddlePulled -> r' = Some DownRelayEngaged))
  /\ (r <> Idle ->
        (r' = Some Idle <->
         g = Some UpShiftConfirmed \/ g = Some DownShiftConfirmed)).
Proof.
  intros Hr r' g. subst r' g. rewrite (relay_step s r Hr).
  destruct (serviced (P6IFG s)) as [[]|]; cbn [next_relay]; split; intros Hi;
    try subst r; repeat split; intros;
    repeat match goal with
           | H : _ \/ _ |- _ => destruct H
           | H : Some _ = Some _ |- _ => inversion H; clear H
           | H : None = Some _ |- _ => discriminate H
           | H : Some _ = None |- _ => discriminate H
           | H : ?x <> ?x |- _ => elim H; reflexivity
           end;
    try discriminate; try congruence; auto.
Qed.

Lemma interlock_transitions_witness :
  relay_of (P8OUT (set_P6IFG BIT4 up_engaged)) = Some UpRelayEngaged /\
  relay_of (P8OUT (PORT6_IRQHandler (set_P6IFG BIT4 up_engaged))) = Some Idle.
Proof.
  split; [reflexivity|].
  destruct (interlock_transitions (set_P6IFG BIT4 up_engaged) UpRelayEngaged
              eq_refl) as [_ H].
  apply H; [discriminate | left; reflexivity].
Defined.

(** C3: in every state reached from the initial state by a sequence of
    port-6 edge events (paddles and hall sensors in any order and
    combination), the up relay and the down relay are not both driven. *)
Theorem relays_mutually_exclusive (p8 : Z) (edges : list Z) :
  exists s, run (map Port6Edge edges) (init_state p8) = Some s /\
            bit_set (P8OUT s) BIT4 && bit_set (P8OUT s) BIT5 = false.
Proof.
  assert (G : forall s0 r0, relay_of (P8OUT s0) = Some r0 ->
            exists s r, run (map Port6Edge edges) s0 = Some s /\
                        relay_of (P8OUT s) = Some r).
  { induction edges as [|l edges IH]; intros s0 r0 H0.
    - exists s0, r0. split; [reflexivity | assumption].
    - cbn [map run step bind].
      eapply IH. apply relay_step. cbn [P8OUT set_P6IFG]. eassumption. }
  destruct (G _ _ (relay_after_init p8)) as (s & r & Hrun & Hr).
  exists s. split; [assumption|]. eapply relay_some_exclusive; eassumption.
Qed.

(** Between the two statements of a paddle branch the port can hold both
    relay bits: pulling the up paddle while the down relay is engaged
    first sets bit 4 and only then clears bit 5.  The handler's final
    state is exclusive again. *)
Lemma paddle_reversal_transient :
  let s := set_P6IFG BIT0 down_engaged in
  relay_of (P8OUT s) = Some DownRelayEngaged /\
  relay_of (P8OUT (set_P8OUT (u8 (Z.lor (P8OUT s) BIT4)) s)) = None /\
  relay_of (P8OUT (PORT6_IRQHandler s)) = Some UpRelayEngaged.
Proof. repeat split; reflexivity. Qed.

(** C9, as stated, does not hold: with the up paddle and the up-shift hall
    sensor both pending, the handler services the paddle only, yet the
    hall sensor's pending flag is cleared too and its confirmation is
    lost. *)
Lemma unserviced_line_cleared :
  let s := set_P6IFG (Z.lor BIT0 BIT4) (init_state 0) in
  serviced (P6IFG s) = Some UpPaddlePulled /\
  bit_set (P6IFG s) BIT4 = true /\
  bit_set (P6IFG (PORT6_IRQHandler s)) BIT4 = false /\
  up_flag (PORT6_IRQHandler s) = false.
Proof. repeat split; reflexivity. Qed.

(** C9 (amended): the handler clears every pending flag of port 6,
    whichever line it serviced and whichever other lines were pending. *)
Theorem handler_clears_all_pending (s : state) :
  P6IFG (PORT6_IRQHandler s) = 0 /\
  forall g : signal, bit_set (P6IFG (PORT6_IRQHandler s)) (line_of g) = false.
Proof.
  assert (H : P6IFG (PORT6_IRQHandler s) = 0).
  { unfold PORT6_IRQHandler. cbn [P6IFG set_P6IFG]. apply u8_clear_all. }
  split; [exact H|]. intros g. rewrite H. destruct g; reflexivity.
Qed.

(** ** Gear display masks (C10) *)

Lemma or_then_andnot (p on off : Z) :
  0 <= on < 256 -> u8 (Z.lnot off) = on ->
  u8 (Z.land (u8 (Z.lor p on)) (Z.lnot off)) = on.
Proof.
  intros Hon Hoff. apply Z.bits_inj'. intros k Hk.
  destruct (Z.ltb_spec k 8) as [Hlt|Hge].
  - rewrite testbit_u8, Z.land_spec, testbit_u8, Z.lor_spec by lia.
    rewrite <- (testbit_u8 (Z.lnot off)) by lia. rewrite Hoff.
    destruct (Z.testbit p k), (Z.testbit on k); reflexivity.
  - rewrite <- (u8_small on Hon) at 2. unfold u8. change 256 with (2 ^ 8).
    rewrite !Z.mod_pow2_bits_high by lia. reflexivity.
Qed.

Ltac each_index g H :=
  repeat (destruct H as [H|H]; [subst g|]); [..|subst g].

Lemma gear_display_exact (g p : Z) :
  0 <= g <= 9 ->
  u8 (Z.land (u8 (Z.lor p (at_index gearON g)))
             (Z.lnot (at_index gearOFF g))) = at_index gearON g.
Proof.
  intros Hg.
  assert (H : g = 0 \/ g = 1 \/ g = 2 \/ g = 3 \/ g = 4 \/
              g = 5 \/ g = 6 \/ g = 7 \/ g = 8 \/ g = 9) by lia.
  each_index g H; apply or_then_andnot;
    solve [cbv; intuition discriminate | reflexivity].
Qed.

(** When the main loop changes the gear, the port shows exactly the new
    gear's segments. *)
Lemma gear_update_shows (s : state) :
  1 <= gearIndex s <= 6 ->
  gearIndex (gear_update s) <> gearIndex s ->
  P4OUT (gear_update s) = at_index gearON (gearIndex (gear_update s)).
Proof.
  intros Hg. unfold gear_update.
  destruct (up_flag s && (gearIndex s <? 6)) eqn:Eu.
  - intros _. cbn [P4OUT gearIndex set_gearIndex set_P4OUT set_up_flag].
    apply andb_true_iff in Eu. destruct Eu as [_ Eu]. apply Z.ltb_lt in Eu.
    apply gear_display_exact. rewrite u8_small; lia.
  - destruct (down_flag s && (1 <? gearIndex s)) eqn:Ed.
    + intros _. cbn [P4OUT gearIndex set_gearIndex set_P4OUT set_down_flag].
      apply andb_true_iff in Ed. destruct Ed as [_ Ed]. apply Z.ltb_lt in Ed.
      apply gear_display_exact. rewrite u8_small; lia.
    + intros H. elim H. reflexivity.
Qed.

(** C10: for every index 0..9 the two tables are bitwise complements, so
    OR-ing the on-mask into the port and then AND-ing with the complement
    of the off-mask leaves exactly the on-mask, whatever the port held.
    The gear part of the main loop is such an update: whenever it takes
    its up branch (up request, gear below 6) or its down branch (no up
    branch, down request, gear above 1) and the new index is [g], it
    stores [g] in the gear index and leaves the 7-segment port equal to
    gearON[g], whatever the port held before. *)
Theorem gear_masks_complementary (g : Z) :
  0 <= g <= 9 ->
  Z.lor (at_index gearON g) (at_index gearOFF g) = 0xFF /\
  Z.land (at_index gearON g) (at_index gearOFF g) = 0 /\
  (forall p : Z,
     u8 (Z.land (u8 (Z.lor p (at_index gearON g)))
                (Z.lnot (at_index gearOFF g))) = at_index gearON g) /\
  (forall s : state,
     up_flag s = true -> gearIndex s < 6 -> gearIndex s + 1 = g ->
     gearIndex (gear_update s) = g /\
     P4OUT (gear_update s) = at_index gearON g) /\
  (forall s : state,
     up_flag s && (gearIndex s <? 6) = false ->
     down_flag s = true -> 1 < gearIndex s -> gearIndex s - 1 = g ->
     gearIndex (gear_update s) = g /\
     P4OUT (gear_update s) = at_index gearON g).
Proof.
  intros Hg. split; [|split; [|split; [|split]]].
  - assert (H : g = 0 \/ g = 1 \/ g = 2 \/ g = 3 \/ g = 4 \/
                g = 5 \/ g = 6 \/ g = 7 \/ g = 8 \/ g = 9) by lia.
    each_index g H; reflexivity.
  - assert (H : g = 0 \/ g = 1 \/ g = 2 \/ g = 3 \/ g = 4 \/
                g = 5 \/ g = 6 \/ g = 7 \/ g = 8 \/ g = 9) by lia.
    each_index g H; reflexivity.
  - intros p. apply gear_display_exact. exact Hg.
  - intros s Hu Hlt Enew. unfold gear_update.
    apply Z.ltb_lt in Hlt. rewrite Hu, Hlt. cbn [andb].
    cbn [P4OUT gearIndex set_gearIndex set_P4OUT set_up_flag].
    rewrite Enew, (u8_small g) by lia.
    split; [reflexivity | apply gear_display_exact; exact Hg].
  - intros s Hno Hd Hgt Enew. unfold gear_update.
    apply Z.ltb_lt in Hgt. rewrite Hno, Hd, Hgt. cbn [andb].
    cbn [P4OUT gearIndex set_gearIndex set_P4OUT set_down_flag].
    rewrite Enew, (u8_small g) by lia.
    split; [reflexivity | apply gear_display_exact; exact Hg].
Qed.

Lemma gear_masks_complementary_witness :
  let s := set_P4OUT 0x3A (set_up_flag true (set_gearIndex 3 (init_state 0))) in
  0 <= 4 <= 9 /\
  (forall p : Z, u8 (Z.land (u8 (Z.lor p 0xC5)) (Z.lnot 0x3A)) = 0xC5) /\
  gearIndex (gear_update s) = 4 /\ P4OUT (gear_update s) = 0xC5.
Proof.
  intros s.
  destruct (gear_masks_complementary 4 ltac:(lia)) as (_ & _ & Hp & Hup & _).
  split; [lia|]. split; [exact Hp|].
  apply (Hup s); [reflexivity | cbn; lia | reflexivity].
Defined.

(** ** The displayed gear (C2, C7) *)

Lemma while_inv (P : state -> Prop) (cond : state -> bool) (body : state -> state) :
  (forall s, P s -> P (body s)) ->
  forall fuel s s', P s -> while fuel cond body s = Some s' -> P s'.
Proof.
  intros Hbody. induction fuel as [|fuel IH]; intros s s' Hs; cbn [while].
  - discriminate.
  - destruct (cond s); [eauto|]. intros E; inversion E; subst; assumption.
Qed.

Lemma for_i_inv (P : state -> Prop) (cond : state -> bool) (body : state -> state) :
  (forall s v, P s -> P (set_i v s)) ->
  (forall s, P s -> P (body s)) ->
  forall s s', P s -> for_i cond body s = Some s' -> P s'.
Proof.
  intros Hi Hbody s s' Hs. unfold for_i.
  apply while_inv; [|apply Hi; assumption].
  intros s1 H1. apply Hi, Hbody, H1.
Qed.

Lemma clearLS_gear_view (s s' : state) :
  clearLS s = Some s' -> gear_view s' = gear_view s.
Proof.
  unfold clearLS.
  apply (for_i_inv (fun x => gear_view x = gear_view s)); auto.
Qed.

Lemma rpmtoLS_gear_view (s s' : state) :
  rpmtoLS s = Some s' -> gear_view s' = gear_view s.
Proof.
  unfold rpmtoLS, rpmtoLS_render.
  destruct (rpm_of_capture (rpmCaptureValue s)) as [r|]; [|discriminate].
  cbn [bind].
  destruct (clearLS _) as [s2|] eqn:E2; [|discriminate]. cbn [bind].
  apply clearLS_gear_view in E2. cbn in E2.
  assert (E : gear_view s2 = gear_view s) by exact E2.
  destruct (NUM_LEDS <? ledsON s2).
  - destruct (LSflash_flag s2).
    + apply (for_i_inv (fun x => gear_view x = gear_view s)); auto.
    + intros H. apply clearLS_gear_view in H. congruence.
  - apply (for_i_inv (fun x => gear_view x = gear_view s)); auto.
    intros x Hx. destruct (led_at x) as [[? ?] ?]. exact Hx.
Qed.

Lemma gear_update_P8OUT (s : state) : P8OUT (gear_update s) = P8OUT s.
Proof.
  unfold gear_update.
  destruct (up_flag s && (gearIndex s <? 6)); [reflexivity|].
  destruct (down_flag s && (1 <? gearIndex s)); reflexivity.
Qed.

(** The relay outputs stay mutually exclusive along runs with timer
    interrupts and main-loop iterations in between as well: only the
    port-6 handler writes the relay port. *)
Lemma relays_exclusive_any_run (evs : list event) :
  forall s s' r,
    relay_of (P8OUT s) = Some r -> run evs s = Some s' ->
    exists r', relay_of (P8OUT s') = Some r'.
Proof.
  induction evs as [|e evs IH]; intros s s' r Hr Hrun.
  - inversion Hrun; subst. eauto.
  - cbn [run] in Hrun. destruct (step e s) as [s1|] eqn:E; [|discriminate].
    cbn [bind] in Hrun.
    assert (H1 : exists r1, relay_of (P8OUT s1) = Some r1).
    { destruct e as [lines|ccr| |]; cbn [step] in E.
      - inversion E; subst s1. eexists. apply relay_step. exact Hr.
      - inversion E; subst s1. eauto.
      - inversion E; subst s1. eauto.
      - unfold main_loop_body in E. destruct (LSflag s).
        + destruct (rpmtoLS s) as [s0|] eqn:E0; [|discriminate].
          cbn [bind] in E.
          assert (Es : s1 = gear_update (set_LSflag false s0)) by congruence.
          apply rpmtoLS_gear_view in E0. unfold gear_view in E0.
          assert (E8 : P8OUT s0 = P8OUT s) by congruence.
          rewrite Es, gear_update_P8OUT. cbn [P8OUT set_LSflag].
          rewrite E8. eauto.
        + cbn [bind] in E.
          assert (Es : s1 = gear_update s) by congruence.
          rewrite Es, gear_update_P8OUT. eauto. }
    destruct H1 as [r1 H1]. exact (IH s1 s' r1 H1 Hrun).
Qed.

Lemma gear_update_spec (s : state) :
  1 <= gearIndex s <= 6 ->
  let s' := gear_update s in
  1 <= gearIndex s' <= 6 /\
  ((gearIndex s' = gearIndex s /\ pending s' = pending s) \/
   (gearIndex s' = gearIndex s + 1 /\ up_flag s = true /\
    S (pending s') = pending s) \/
   (gearIndex s' = gearIndex s - 1 /\ down_flag s = true /\
    S (pending s') = pending s)).
Proof.
  intros Hg. unfold gear_update, pending.
  destruct (up_flag s) eqn:Hu, (down_flag s) eqn:Hd; cbn [andb];
    destruct (Z.ltb_spec (gearIndex s) 6), (Z.ltb_spec 1 (gearIndex s));
    cbn; rewrite ?Hu, ?Hd, ?u8_small by lia; cbn;
    (split; [lia|]); auto 6.
Qed.

Lemma handler_gear (s : state) :
  gearIndex (PORT6_IRQHandler s) = gearIndex s /\
  (pending (PORT6_IRQHandler s)
   <= pending s + match serviced (P6IFG s) with
                  | Some UpShiftConfirmed | Some DownShiftConfirmed => 1
                  | _ => 0
                  end)%nat.
Proof.
  unfold PORT6_IRQHandler, serviced, pending.
  destruct (bit_set (P6IFG s) BIT0); [cbn; split; [reflexivity | lia]|].
  destruct (bit_set (P6IFG s) BIT1); [cbn; split; [reflexivity | lia]|].
  destruct (bit_set (P6IFG s) BIT4);
    [cbn; split; [reflexivity | destruct (up_flag s); cbn; lia]|].
  destruct (bit_set (P6IFG s) BIT5);
    [cbn; split; [reflexivity | destruct (down_flag s); cbn; lia]|].
  cbn; split; [reflexivity | lia].
Qed.

Lemma gear_step_still (e : event) (s s' : state) :
  1 <= gearIndex s <= 6 ->
  gearIndex s' = gearIndex s ->
  (pending s' <= pending s + Nat.b2n (is_confirmation e s))%nat ->
  gear_step_ok e s s'.
Proof.
  intros Hg E Hp. unfold gear_step_ok.
  rewrite E, Z.sub_diag, Z.eqb_refl. cbn [negb Nat.b2n Nat.add Z.abs].
  repeat split; try lia.
Qed.

Lemma step_gear (e : event) (s s' : state) :
  1 <= gearIndex s <= 6 -> step e s = Some s' -> gear_step_ok e s s'.
Proof.
  intros Hg Hstep. destruct e as [lines|ccr| |]; cbn [step] in Hstep.
  - inversion Hstep; subst s'; clear Hstep.
    destruct (handler_gear (set_P6IFG (Z.lor (P6IFG s) (u8 lines)) s))
      as [Eg Hp].
    apply gear_step_still; [assumption | exact Eg |].
    cbn [is_confirmation].
    change (P6IFG (set_P6IFG (Z.lor (P6IFG s) (u8 lines)) s))
      with (Z.lor (P6IFG s) (u8 lines)) in Hp.
    change (pending (set_P6IFG (Z.lor (P6IFG s) (u8 lines)) s))
      with (pending s) in Hp.
    destruct (serviced _) as [[]|]; cbn [Nat.b2n]; lia.
  - inversion Hstep; subst s'; clear Hstep.
    apply gear_step_still; [assumption | reflexivity |].
    change (pending (TA0_0_IRQHandler ccr s)) with (pending s). lia.
  - inversion Hstep; subst s'; clear Hstep.
    apply gear_step_still; [assumption | reflexivity |].
    change (pending (TA1_0_IRQHandler s)) with (pending s). lia.
  - unfold main_loop_body in Hstep.
    assert (H1 : exists s1, gear_view s1 = gear_view s /\ s' = gear_update s1).
    { destruct (LSflag s).
      - destruct (rpmtoLS s) as [s0|] eqn:E; [|discriminate].
        cbn [bind] in Hstep. inversion Hstep.
        exists (set_LSflag false s0). split; [|reflexivity].
        apply rpmtoLS_gear_view in E. exact E.
      - cbn [bind] in Hstep. inversion Hstep. exists s. auto. }
    destruct H1 as (s1 & Ev & ->). unfold gear_view in Ev.
    inversion Ev as [[Eg Eu Ed E4 E6 E8]].
    assert (Ep : pending s1 = pending s) by (unfold pending; congruence).
    assert (Hg1 : 1 <= gearIndex s1 <= 6) by lia.
    destruct (gear_update_spec s1 Hg1) as [Hr Hc].
    unfold gear_step_ok.
    rewrite <- Eg, <- Eu, <- Ed, <- Ep. cbn [is_confirmation Nat.b2n].
    split; [exact Hr|].
    destruct Hc as [[E Hp]|[(E & Hf & Hp)|(E & Hf & Hp)]]; rewrite E.
    + rewrite Z.sub_diag, Z.eqb_refl. cbn [negb Nat.b2n Z.abs].
      repeat split; lia.
    + destruct (Z.eqb_spec (gearIndex s1 + 1) (gearIndex s1)); [lia|].
      cbn [negb Nat.b2n]. repeat split; try lia. auto.
    + destruct (Z.eqb_spec (gearIndex s1 - 1) (gearIndex s1)); [lia|].
      cbn [negb Nat.b2n]. repeat split; try lia. auto.
Qed.

Lemma changes_gear_step (e : event) (s s' : state) :
  step e s = Some s' -> changes_gear e s = negb (gearIndex s' =? gearIndex s).
Proof. intros H. unfold changes_gear. rewrite H. reflexivity. Qed.

Lemma run_gear (evs : list event) :
  forall s s', 1 <= gearIndex s <= 6 -> run evs s = Some s' ->
  1 <= gearIndex s' <= 6 /\
  (count_along changes_gear evs s + pending s'
   <= pending s + count_along is_confirmation evs s)%nat.
Proof.
  induction evs as [|e evs IH]; intros s s' Hg Hrun.
  - inversion Hrun; subst. cbn. split; [assumption | lia].
  - cbn [run] in Hrun. cbn [count_along].
    destruct (step e s) as [s1|] eqn:E; [|discriminate]. cbn [bind] in Hrun.
    destruct (step_gear e s s1 Hg E) as (Hg1 & _ & _ & Hc).
    cbv beta in Hc.
    destruct (IH s1 s' Hg1 Hrun) as [Hg' Hc'].
    split; [assumption|]. rewrite (changes_gear_step e s s1 E).
    destruct (negb _), (is_confirmation e s); cbn [Nat.b2n] in Hc; lia.
Qed.

Lemma run_app (evs1 evs2 : list event) (s : state) :
  run (evs1 ++ evs2) s = s1 <- run evs1 s ;; run evs2 s1.
Proof.
  revert s. induction evs1 as [|e evs1 IH]; intros s; cbn [app run bind].
  - reflexivity.
  - destruct (step e s); cbn [bind]; auto.
Qed.

(** C2: along every run from the initial state (interrupts and main-loop
    iterations in any order) the displayed gear stays within 1..6; an event
    moves it by at most one; it moves only on a main-loop iteration that
    found the flag of a hall-sensor confirmation set (up_flag for +1,
    down_flag for -1), never on a port-6 event alone; and the number of
    moves never exceeds the number of hall-sensor confirmations
    serviced. *)
Theorem gear_index_discipline (p8 : Z) (evs : list event) (e : event)
    (s s' : state) :
  run evs (init_state p8) = Some s -> step e s = Some s' ->
  1 <= gearIndex s' <= 6 /\
  Z.abs (gearIndex s' - gearIndex s) <= 1 /\
  (gearIndex s' <> gearIndex s ->
   e = MainIteration /\
   ((up_flag s = true /\ gearIndex s' = gearIndex s + 1) \/
    (down_flag s = true /\ gearIndex s' = gearIndex s - 1))) /\
  (count_along changes_gear (evs ++ [e]) (init_state p8)
   <= count_along is_confirmation (evs ++ [e]) (init_state p8))%nat.
Proof.
  intros Hrun Hstep.
  assert (H0 : 1 <= gearIndex (init_state p8) <= 6) by (cbn; lia).
  destruct (run_gear evs _ _ H0 Hrun) as [Hg _].
  destruct (step_gear e s s' Hg Hstep) as (Hg' & Habs & Hwhy & _).
  split; [exact Hg'|]. split; [exact Habs|]. split; [exact Hwhy|].
  assert (Hall : run (evs ++ [e]) (init_state p8) = Some s').
  { rewrite run_app, Hrun. cbn [bind run]. rewrite Hstep. reflexivity. }
  destruct (run_gear _ _ _ H0 Hall) as [_ Hc].
  change (pending (init_state p8)) with 0%nat in Hc. lia.
Qed.

Lemma gear_index_discipline_witness :
  run [Port6Edge BIT0; Port6Edge BIT4] (init_state 0) = Some up_confirmed /\
  step MainIteration up_confirmed = Some (gear_update up_confirmed) /\
  1 <= gearIndex (gear_update up_confirmed) <= 6.
Proof.
  assert (H1 : run [Port6Edge BIT0; Port6Edge BIT4] (init_state 0)
               = Some up_confirmed) by reflexivity.
  assert (H2 : step MainIteration up_confirmed
               = Some (gear_update up_confirmed)) by reflexivity.
  split; [exact H1|]. split; [exact H2|].
  exact (proj1 (gear_index_discipline 0 _ _ _ _ H1 H2)).
Defined.

(** At either end of the range a request in the outward direction leaves
    the whole state as it is, its flag included. *)
Lemma gear_update_at_top (s : state) :
  gearIndex s = 6 -> down_flag s = false -> gear_update s = s.
Proof.
  intros Hg Hd. unfold gear_update. rewrite Hg, Hd. cbn.
  rewrite andb_false_r. reflexivity.
Qed.

Lemma gear_update_at_bottom (s : state) :
  gearIndex s = 1 -> up_flag s = false -> gear_update s = s.
Proof.
  intros Hg Hu. unfold gear_update. rewrite Hg, Hu. cbn.
  rewrite andb_false_r. reflexivity.
Qed.

(** C7: the guard of the main loop keeps the gear at the boundary, but the
    flag of the refused request is not reset and takes effect later.  At
    gear 6 an up-shift confirmation leaves gear 6 with up_flag still set;
    the next confirmed down-shift shows 5 for one iteration and 6 again on
    the following one.  Symmetrically at gear 1: a down-shift confirmation
    followed by a confirmed up-shift ends on gear 1 instead of 2. *)
Theorem refused_request_resurfaces :
  let top := to_top_gear ++ [Port6Edge BIT0; Port6Edge BIT4; MainIteration] in
  let down := [Port6Edge BIT1; Port6Edge BIT5; MainIteration] in
  option_map gearIndex (run to_top_gear (init_state 0)) = Some 6 /\
  option_map (fun s => (gearIndex s, up_flag s)) (run top (init_state 0))
    = Some (6, true) /\
  option_map gearIndex (run (top ++ down) (init_state 0)) = Some 5 /\
  option_map gearIndex (run (top ++ down ++ [MainIteration]) (init_state 0))
    = Some 6 /\
  option_map gearIndex
    (run [Port6Edge BIT5; MainIteration; Port6Edge BIT4; MainIteration]
       (init_state 0)) = Some 2 /\
  option_map gearIndex
    (run [Port6Edge BIT5; MainIteration; Port6Edge BIT4; MainIteration;
          MainIteration] (init_state 0)) = Some 1.
Proof. repeat split; reflexivity. Qed.

(** ** The strip driver and the renderer (C5, C6, C8) *)

Lemma clearLS_spec (s : state) :
  clearLS s
  = Some (set_i (NUM_LEDS + 1) (set_TXBUF (rev clear_bytes ++ TXBUF s) s)).
Proof. reflexivity. Qed.

(** C8: the loop of [clearLS] runs while [i <= NUM_LEDS], so after the one
    start frame it sends 31 blank LED frames, one more than the strip has
    LEDs; each frame is the byte 224 followed by three zero bytes. *)
Theorem clearLS_one_frame_too_many (s : state) :
  exists s',
    clearLS s = Some s' /\
    rev (TXBUF s')
    = rev (TXBUF s) ++ start_frame ++ concat (repeat [224; 0; 0; 0] 31) /\
    i s' = NUM_LEDS + 1 /\
    Z.of_nat (length (TXBUF s')) = Z.of_nat (length (TXBUF s)) + 4 + 4 * (NUM_LEDS + 1).
Proof.
  eexists. split; [apply clearLS_spec|]. cbn [TXBUF i set_i set_TXBUF].
  split; [|split; [reflexivity|]].
  - rewrite rev_app_distr, rev_involutive. reflexivity.
  - rewrite length_app, Nat2Z.inj_add.
    change (Z.of_nat (length (rev clear_bytes))) with 128.
    change NUM_LEDS with 30. lia.
Qed.

Lemma all_red_spec (s : state) :
  for_i (fun s3 => i s3 <? NUM_LEDS) (sendLS 255 0 0) (sendLS_START s)
  = Some (set_i NUM_LEDS (set_TXBUF (rev red_bytes ++ TXBUF s) s)).
Proof. reflexivity. Qed.

Lemma bar_loop (n : nat) :
  forall (fuel a : nat) (s : state),
    (n < fuel)%nat -> i s = Z.of_nat a -> ledsON s = Z.of_nat (a + n) ->
    while fuel (fun s3 => i s3 <? ledsON s3) bar_body s
    = Some (set_i (Z.of_nat (a + n))
              (set_TXBUF
                 (rev (concat (map (fun j => wire (nth j (lightstrip s) (0, 0, 0)))
                                   (seq a n))) ++ TXBUF s) s)).
Proof.
  induction n as [|n IH]; intros fuel a s Hf Hi Hl;
    (destruct fuel as [|fuel]; [lia|]); cbn [while]; rewrite Hi, Hl.
  - rewrite Nat.add_0_r, Z.ltb_irrefl. destruct s; cbn in *; subst.
    reflexivity.
  - destruct (Z.ltb_spec (Z.of_nat a) (Z.of_nat (a + S n))); [|lia].
    rewrite (IH fuel (S a) (bar_body s)).
    + unfold bar_body, led_at. rewrite Hi, Nat2Z.id.
      destruct (nth a (lightstrip s) (0, 0, 0)) as [[r g] b] eqn:E.
      cbn [seq map concat]. rewrite E. cbn [wire].
      rewrite rev_app_distr, <- app_assoc, Nat.add_succ_r.
      destruct s; reflexivity.
    + lia.
    + unfold bar_body. destruct (led_at s) as [[r g] b]. cbn. lia.
    + unfold bar_body. destruct (led_at s) as [[r g] b]. cbn.
      cbn in Hl. lia.
Qed.

(** ** The strip's reading of frames *)

Lemma strip_feed_start (rest : list Z) (st : strip) :
  strip_feed (start_frame ++ rest) st = strip_feed rest (mkStrip (leds st) 0).
Proof. reflexivity. Qed.

Lemma strip_feed_frames (h : Z) (cs : list color) :
  224 <= h ->
  forall (rest : list Z) (st : strip),
    strip_feed (concat (map (led_frame h) cs) ++ rest) st
    = strip_feed rest
        (mkStrip (write_from (ptr st) cs (leds st)) (ptr st + length cs)).
Proof.
  intros Hh. induction cs as [|[[r g] b] cs IH]; intros rest st.
  - cbn. rewrite Nat.add_0_r. destruct st; reflexivity.
  - cbn [map concat led_frame app strip_feed]. rewrite IH.
    unfold strip_frame.
    destruct (Z.eqb_spec h 0) as [E|_]; [lia|]. cbn [andb].
    destruct (Z.leb_spec 224 h) as [_|]; [|lia].
    cbn [leds ptr write_from length]. rewrite Nat.add_succ_r. reflexivity.
Qed.

Lemma length_upd_nth {A : Type} (v : A) (l : list A) :
  forall n, length (upd_nth n v l) = length l.
Proof.
  induction l as [|x l IH]; intros [|n]; cbn; auto.
Qed.

Lemma nth_upd_nth {A : Type} (v d : A) (l : list A) :
  forall n j,
    nth j (upd_nth n v l) d
    = if (j =? n)%nat && (j <? length l)%nat then v else nth j l d.
Proof.
  induction l as [|x l IH]; intros n j.
  - cbn [length Nat.ltb Nat.leb]. rewrite andb_false_r. destruct n; reflexivity.
  - destruct n as [|n], j as [|j]; cbn [upd_nth nth length]; try reflexivity.
    rewrite IH. reflexivity.
Qed.

Lemma length_write_from (cs : list color) :
  forall p l, length (write_from p cs l) = length l.
Proof.
  induction cs as [|c cs IH]; intros p l; cbn [write_from]; [reflexivity|].
  rewrite IH. apply length_upd_nth.
Qed.

Lemma nth_write_from (d : color) (cs : list color) :
  forall p l j,
    nth j (write_from p cs l) d
    = if (p <=? j)%nat && (j <? p + length cs)%nat && (j <? length l)%nat
      then nth (j - p) cs d else nth j l d.
Proof.
  induction cs as [|c cs IH]; intros p l j; cbn [write_from length].
  - destruct (p <=? j)%nat eqn:E1, (j <? p + 0)%nat eqn:E2; cbn [andb];
      try reflexivity.
    apply Nat.leb_le in E1. apply Nat.ltb_lt in E2. lia.
  - rewrite IH, length_upd_nth, nth_upd_nth.
    destruct (Nat.ltb_spec j (length l)); cbn [andb];
      [|rewrite !andb_false_r; reflexivity].
    rewrite !andb_true_r.
    destruct (Nat.eqb_spec j p) as [->|Hne].
    + rewrite Nat.sub_diag. cbn [nth].
      destruct (Nat.leb_spec (S p) p); [lia|]. cbn [andb].
      destruct (Nat.leb_spec p p); [|lia].
      destruct (Nat.ltb_spec p (p + S (length cs))); [|lia]. reflexivity.
    + destruct (Nat.leb_spec (S p) j), (Nat.leb_spec p j); try lia;
        cbn [andb]; try reflexivity.
      replace (j - p)%nat with (S (j - S p)) by lia. cbn [nth].
      destruct (Nat.ltb_spec j (S p + length cs)),
               (Nat.ltb_spec j (p + S (length cs))); try lia; reflexivity.
Qed.

(** A start frame followed by LED frames, read by a strip that holds
    [length (leds st)] LEDs. *)
Lemma strip_feed_pattern (h : Z) (cs : list color) (rest : list Z) (st : strip) :
  224 <= h ->
  strip_feed (start_frame ++ concat (map (led_frame h) cs) ++ rest) st
  = strip_feed rest (mkStrip (write_from 0 cs (leds st)) (length cs)).
Proof.
  intros Hh. rewrite strip_feed_start, strip_feed_frames by assumption.
  reflexivity.
Qed.

Lemma clear_bytes_frames :
  clear_bytes
  = start_frame ++ concat (map (led_frame 224) (repeat (0, 0, 0) 31)).
Proof. reflexivity. Qed.

Lemma red_bytes_frames :
  red_bytes
  = start_frame ++ concat (map (led_frame 227) (repeat (255, 0, 0) 30)).
Proof. reflexivity. Qed.

(** Whatever the strip showed, after [clear_bytes] every LED is off. *)
Lemma strip_after_clear (rest : list Z) (st : strip) :
  exists st',
    strip_feed (clear_bytes ++ rest) st = strip_feed rest st' /\
    length (leds st') = length (leds st) /\
    forall j, (length (leds st) <= 31)%nat -> nth j (leds st') (0, 0, 0) = (0, 0, 0).
Proof.
  rewrite clear_bytes_frames, <- app_assoc, strip_feed_pattern by lia.
  eexists. split; [reflexivity|]. cbn [leds].
  split; [apply length_write_from|]. intros j Hlen.
  rewrite nth_write_from, repeat_length, Nat.sub_0_r.
  destruct (_ && _ && _) eqn:E.
  - apply nth_repeat.
  - apply nth_overflow.
    cbn [Nat.leb andb Nat.add] in E. apply andb_false_iff in E.
    destruct E as [E|E]; apply Nat.ltb_ge in E; lia.
Qed.

Lemma litCount_div (v : Z) :
  0 <= v <= 65535 -> litCount v = v * NUM_LEDS / (MAX_RPM - 1500).
Proof.
  intros Hv. unfold litCount.
  change NUM_LEDS with 30. change (MAX_RPM - 1500) with 10500.
  rewrite Z.quot_div_nonneg by lia. apply u8_small.
  split; [apply Z.div_pos; lia|].
  apply Z.div_lt_upper_bound; lia.
Qed.

(** The count exceeds the strip length from 10850 rpm on; from 10500 to
    10849 rpm it equals the strip length and the full bar is shown. *)
Lemma shift_zone_threshold (v : Z) :
  0 <= v <= 65535 -> (NUM_LEDS < litCount v <-> 10850 <= v).
Proof.
  intros Hv. rewrite litCount_div by assumption.
  change NUM_LEDS with 30. change (MAX_RPM - 1500) with 10500.
  pose proof (Z.div_mod (v * 30) 10500 ltac:(lia)).
  pose proof (Z.mod_pos_bound (v * 30) 10500 ltac:(lia)). lia.
Qed.

(** C5: whenever the computed LED count exceeds the strip length, the
    renderer sends the blanking sequence followed, if the flash flag is
    set, by a start frame and 30 full-red frames, and otherwise by the
    blanking sequence again.  Read by a 30-LED strip in any prior state,
    these bytes leave all 30 LEDs red, respectively all 30 off, and the
    strip is fully blank after the leading blanking sequence. *)
Theorem shift_zone_flash (s : state) (st : strip) :
  NUM_LEDS < litCount (rpm s) ->
  length (leds st) = Z.to_nat NUM_LEDS ->
  let out := clear_bytes ++ (if LSflash_flag s then red_bytes else clear_bytes) in
  let shown := if LSflash_flag s then (255, 0, 0) else (0, 0, 0) in
  (exists s', rpmtoLS_render s = Some s' /\
              rev (TXBUF s') = rev (TXBUF s) ++ out) /\
  (forall j, (j < 30)%nat ->
             nth j (leds (strip_feed clear_bytes st)) (0, 0, 0) = (0, 0, 0)) /\
  length (leds (strip_feed out st)) = 30%nat /\
  (forall j, (j < 30)%nat -> nth j (leds (strip_feed out st)) (0, 0, 0) = shown).
Proof.
  intros Hk Hlen out shown. change (Z.to_nat NUM_LEDS) with 30%nat in Hlen.
  split; [|split; [|split]].
  - unfold rpmtoLS_render. rewrite clearLS_spec. cbn [bind].
    cbn [ledsON set_i set_TXBUF set_ledsON LSflash_flag].
    destruct (Z.ltb_spec NUM_LEDS (litCount (rpm s))); [|lia].
    subst out. destruct (LSflash_flag s).
    + rewrite all_red_spec. eexists. split; [reflexivity|].
      cbn [TXBUF set_i set_TXBUF set_ledsON].
      rewrite !rev_app_distr, !rev_involutive, app_assoc. reflexivity.
    + rewrite clearLS_spec. eexists. split; [reflexivity|].
      cbn [TXBUF set_i set_TXBUF set_ledsON].
      rewrite !rev_app_distr, !rev_involutive, app_assoc. reflexivity.
  - intros j Hj.
    destruct (strip_after_clear [] st) as (st' & E & _ & Hoff).
    rewrite app_nil_r in E. rewrite E. cbn [strip_feed]. apply Hoff. lia.
  - destruct (strip_after_clear (if LSflash_flag s then red_bytes else clear_bytes) st)
      as (st' & E & Hl & _).
    subst out. rewrite E. destruct (LSflash_flag s).
    + rewrite red_bytes_frames, <- (app_nil_r (concat _)).
      rewrite strip_feed_pattern by lia. cbn [strip_feed leds].
      rewrite length_write_from. lia.
    + destruct (strip_after_clear [] st') as (st2 & E2 & Hl2 & _).
      rewrite app_nil_r in E2. rewrite E2. cbn [strip_feed]. lia.
  - intros j Hj.
    destruct (strip_after_clear (if LSflash_flag s then red_bytes else clear_bytes) st)
      as (st' & E & Hl & _).
    subst out shown. rewrite E. destruct (LSflash_flag s).
    + rewrite red_bytes_frames, <- (app_nil_r (concat _)).
      rewrite strip_feed_pattern by lia. cbn [strip_feed leds].
      rewrite nth_write_from, repeat_length, Nat.sub_0_r, Hl, Hlen.
      cbn [Nat.leb Nat.add andb].
      destruct (Nat.ltb_spec j 30); [|lia]. cbn [andb].
      apply nth_repeat_lt. assumption.
    + destruct (strip_after_clear [] st') as (st2 & E2 & Hl2 & Hoff).
      rewrite app_nil_r in E2. rewrite E2. cbn [strip_feed]. apply Hoff. lia.
Qed.

Lemma shift_zone_flash_witness :
  let s := set_LSflash_flag true (set_rpm 12000 (init_state 0)) in
  let st := mkStrip (repeat (0, 255, 0) 30) 7 in
  NUM_LEDS < litCount (rpm s) /\
  length (leds st) = Z.to_nat NUM_LEDS /\
  forall j, (j < 30)%nat ->
            nth j (leds (strip_feed (clear_bytes ++ red_bytes) st)) (0, 0, 0)
            = (255, 0, 0).
Proof.
  intros s st.
  assert (H1 : NUM_LEDS < litCount (rpm s)) by reflexivity.
  assert (H2 : length (leds st) = Z.to_nat NUM_LEDS) by reflexivity.
  split; [exact H1|]. split; [exact H2|].
  exact (proj2 (proj2 (proj2 (shift_zone_flash s st H1 H2)))).
Defined.

Lemma map_nth_seq {A : Type} (d : A) (l : list A) :
  forall n, (n <= length l)%nat ->
            map (fun j => nth j l d) (seq 0 n) = firstn n l.
Proof.
  induction l as [|x l IH]; intros n Hn.
  - cbn [length] in Hn. replace n with 0%nat by lia. reflexivity.
  - destruct n as [|n]; [reflexivity|].
    cbn [seq map nth firstn]. f_equal.
    rewrite <- seq_shift, map_map. cbn [nth]. apply IH.
    cbn [length] in Hn. lia.
Qed.

Lemma TXBUF_sendLS_START (s : state) :
  TXBUF (sendLS_START s) = rev start_frame ++ TXBUF s.
Proof. reflexivity. Qed.

Lemma wire_LedZoneTable :
  map wire LedZoneTable = map (led_frame 227) LedZoneTable.
Proof. reflexivity. Qed.

Lemma LedZoneTable_lit (j : nat) :
  (j < 30)%nat -> lit (nth j LedZoneTable (0, 0, 0)) = true.
Proof.
  intros Hj. do 30 (destruct j as [|j]; [reflexivity|]). lia.
Qed.

Lemma litCount_mono (v1 v2 : Z) :
  0 <= v1 <= v2 -> v2 <= 65535 -> litCount v1 <= litCount v2.
Proof.
  intros H1 H2. rewrite !litCount_div by lia.
  apply Z.div_le_mono; [reflexivity|].
  apply Z.mul_le_mono_nonneg_r; [discriminate | lia].
Qed.

Lemma bar_spec (s : state) :
  lightstrip s = LedZoneTable -> 0 <= ledsON s <= NUM_LEDS ->
  for_i (fun s3 => i s3 <? ledsON s3)
    (fun s3 => let '(r, g, b) := led_at s3 in sendLS r g b s3)
    (sendLS_START s)
  = Some (set_i (ledsON s)
            (set_TXBUF (rev (bar_bytes (Z.to_nat (ledsON s))) ++ TXBUF s) s)).
Proof.
  intros Htbl Hk. unfold for_i.
  change (fun s1 => let s2 := (let '(r, g, b) := led_at s1 in sendLS r g b s1) in
                    set_i (i s2 + 1) s2) with bar_body.
  rewrite (bar_loop (Z.to_nat (ledsON s)) loop_fuel 0).
  - cbn [Nat.add lightstrip set_i sendLS_START sendSPIbyte set_TXBUF].
    rewrite Z2Nat.id by lia. rewrite Htbl.
    rewrite <- (map_map (fun j => nth j LedZoneTable (0, 0, 0)) wire).
    rewrite map_nth_seq
      by (change (length LedZoneTable) with 30%nat; change NUM_LEDS with 30 in Hk; lia).
    rewrite <- firstn_map, wire_LedZoneTable, firstn_map.
    unfold bar_bytes. rewrite rev_app_distr, <- app_assoc. reflexivity.
  - unfold loop_fuel. change NUM_LEDS with 30 in Hk. lia.
  - reflexivity.
  - cbn [Nat.add ledsON set_i sendLS_START sendSPIbyte set_TXBUF].
    rewrite Z2Nat.id by lia. reflexivity.
Qed.

(** C6: the LED count is non-decreasing in the speed; and whenever it does
    not exceed the strip length, the renderer sends the blanking sequence,
    a start frame and one frame per lit LED carrying the colours of
    [LedZoneTable] in order.  Read by a 30-LED strip in any prior state
    (a longer bar, say), these bytes leave LED [j] showing the table's
    colour [j] for [j] below the count and off from the count on: the
    lit LEDs are exactly those below the count. *)
Theorem bar_graph_render (s : state) (st : strip) :
  lightstrip s = LedZoneTable ->
  litCount (rpm s) <= NUM_LEDS ->
  length (leds st) = Z.to_nat NUM_LEDS ->
  let k := Z.to_nat (litCount (rpm s)) in
  let out := clear_bytes ++ bar_bytes k in
  let shown := leds (strip_feed out st) in
  (forall v1 v2, 0 <= v1 <= v2 -> v2 <= 65535 -> litCount v1 <= litCount v2) /\
  (exists s', rpmtoLS_render s = Some s' /\
              rev (TXBUF s') = rev (TXBUF s) ++ out) /\
  length shown = 30%nat /\
  (forall j, (j < 30)%nat ->
             nth j shown (0, 0, 0)
             = if (j <? k)%nat then nth j LedZoneTable (0, 0, 0) else (0, 0, 0)) /\
  (forall j, (j < 30)%nat -> lit (nth j shown (0, 0, 0)) = (j <? k)%nat).
Proof.
  intros Htbl Hk Hlen k out shown.
  change (Z.to_nat NUM_LEDS) with 30%nat in Hlen.
  assert (Hk0 : 0 <= litCount (rpm s)) by apply u8_range.
  assert (Hk30 : (k <= 30)%nat)
    by (subst k; change NUM_LEDS with 30 in Hk; lia).
  assert (Hshown : length shown = 30%nat /\
            forall j, (j < 30)%nat ->
              nth j shown (0, 0, 0)
              = if (j <? k)%nat then nth j LedZoneTable (0, 0, 0) else (0, 0, 0)).
  { subst shown out.
    destruct (strip_after_clear (bar_bytes k) st) as (st' & E & Hl & Hoff).
    rewrite E. unfold bar_bytes.
    rewrite <- (app_nil_r (concat _)), strip_feed_pattern by lia.
    cbn [strip_feed leds]. split.
    - rewrite length_write_from. lia.
    - intros j Hj.
      rewrite nth_write_from, Nat.sub_0_r, Hl, Hlen, firstn_length_le
        by (change (length LedZoneTable) with 30%nat; lia).
      cbn [Nat.leb Nat.add andb].
      destruct (Nat.ltb_spec j 30); [|lia]. rewrite andb_true_r.
      rewrite nth_firstn.
      destruct (j <? k)%nat; [reflexivity | apply Hoff; lia]. }
  split; [exact litCount_mono|]. split; [|split; [apply Hshown|split; [apply Hshown|]]].
  - unfold rpmtoLS_render. rewrite clearLS_spec. cbn [bind].
    cbn [ledsON set_i set_TXBUF set_ledsON].
    destruct (Z.ltb_spec NUM_LEDS (litCount (rpm s))); [lia|].
    rewrite bar_spec; [|exact Htbl | cbn [ledsON set_i set_TXBUF set_ledsON]; lia].
    eexists. split; [reflexivity|].
    cbn [TXBUF ledsON set_i set_TXBUF set_ledsON].
    subst out k. rewrite !rev_app_distr, !rev_involutive, app_assoc. reflexivity.
  - intros j Hj. destruct Hshown as [_ Hn]. rewrite (Hn j Hj).
    destruct (Nat.ltb_spec j k); [apply LedZoneTable_lit; assumption | reflexivity].
Qed.

Lemma bar_graph_render_witness :
  let s := set_rpm 6000 (init_state 0) in
  let st := mkStrip (repeat (255, 0, 0) 30) 30 in
  lightstrip s = LedZoneTable /\
  litCount (rpm s) <= NUM_LEDS /\
  length (leds st) = Z.to_nat NUM_LEDS /\
  forall j, (j < 30)%nat ->
    lit (nth j (leds (strip_feed (clear_bytes ++ bar_bytes 17) st)) (0, 0, 0))
    = (j <? 17)%nat.
Proof.
  intros s st.
  assert (H1 : lightstrip s = LedZoneTable) by reflexivity.
  assert (H2 : litCount (rpm s) <= NUM_LEDS) by discriminate.
  assert (H3 : length (leds st) = Z.to_nat NUM_LEDS) by reflexivity.
  split; [exact H1|]. split; [exact H2|]. split; [exact H3|].
  exact (proj2 (proj2 (proj2 (proj2 (bar_graph_render s st H1 H2 H3))))).
Defined.

(** ** The RPM conversion (C4)

    The binary64 quotient is followed through [SpecFloat]'s rounding: the
    capture value converts exactly, multiplying by 8.0 only moves the
    exponent, and the rounded quotient differs from the exact one far
    below the unit, so the integer part that the cast keeps is that of
    the exact quotient. *)

Lemma Zdigits_log2 (p : positive) : Zpos (digits2_pos p) = Z.log2 (Zpos p) + 1.
Proof.
  destruct p as [p|p|]; cbn [digits2_pos Z.log2]; try reflexivity;
    rewrite Pos2Z.inj_succ; f_equal;
    induction p as [p IH|p IH|]; cbn [digits2_pos Pos.size];
    rewrite ?Pos2Z.inj_succ, ?IH; reflexivity.
Qed.

Lemma digits_of_bounds (p : positive) (d : Z) :
  0 < d -> 2 ^ (d - 1) <= Zpos p < 2 ^ d -> Zpos (digits2_pos p) = d.
Proof.
  intros Hd Hp. rewrite Zdigits_log2.
  rewrite (Z.log2_unique (Zpos p) (d - 1)); [lia | lia |].
  replace (Z.succ (d - 1)) with d by lia. assumption.
Qed.

Lemma bounds_of_digits (p : positive) :
  2 ^ (Zpos (digits2_pos p) - 1) <= Zpos p < 2 ^ Zpos (digits2_pos p).
Proof.
  rewrite Zdigits_log2. replace (Z.log2 (Zpos p) + 1 - 1) with (Z.log2 (Zpos p)) by lia.
  apply Z.log2_spec. reflexivity.
Qed.

Lemma iter_xO_Z (p d : positive) : Zpos (Pos.iter xO p d) = Zpos p * 2 ^ Zpos d.
Proof.
  rewrite (Pos.iter_swap_gen _ _ Zpos xO (Z.mul 2)) by reflexivity.
  change (Pos.iter (Z.mul 2) (Zpos p) d) with (Z.shiftl (Zpos p) (Zpos d)).
  apply Z.shiftl_mul_pow2. discriminate.
Qed.

Section Canonical.
Variables prec emax : Z.

Lemma shr_record_of_loc_m (m : Z) (l : location) :
  shr_m (shr_record_of_loc m l) = m.
Proof. destruct l as [|[]]; reflexivity. Qed.

Lemma loc_of_shr_record_of_loc (m : Z) (l : location) :
  loc_of_shr_record (shr_record_of_loc m l) = l.
Proof. destruct l as [|[]]; reflexivity. Qed.

(** A mantissa already in canonical position is left alone. *)
Lemma shr_fexp_canonical (m : positive) (e : Z) (l : location) :
  fexp prec emax (Zpos (digits2_pos m) + e) = e ->
  shr_fexp prec emax (Zpos m) e l = (shr_record_of_loc (Zpos m) l, e).
Proof.
  intros H. unfold shr_fexp. cbn [Zdigits2]. rewrite H, Z.sub_diag.
  reflexivity.
Qed.

Lemma binary_round_aux_canonical (s : bool) (m : positive) (e : Z) :
  fexp prec emax (Zpos (digits2_pos m) + e) = e ->
  e <= emax - prec ->
  binary_round_aux prec emax s (Zpos m) e loc_Exact = S754_finite s m e.
Proof.
  intros H He. unfold binary_round_aux.
  rewrite (shr_fexp_canonical m e loc_Exact H).
  cbn [shr_record_of_loc shr_m loc_of_shr_record round_nearest_even].
  rewrite (shr_fexp_canonical m e loc_Exact H).
  cbn [shr_record_of_loc shr_m].
  destruct (Z.leb_spec e (emax - prec)); [reflexivity | lia].
Qed.
End Canonical.

Lemma digits_iter_xO (p d : positive) :
  digits2_pos (Pos.iter xO p d) = (digits2_pos p + d)%positive.
Proof.
  rewrite (Pos.iter_swap_gen _ _ digits2_pos xO Pos.succ) by reflexivity.
  induction d as [|d IH] using Pos.peano_ind.
  - cbn. rewrite Pos.add_1_r. reflexivity.
  - rewrite Pos.iter_succ, IH, Pos.add_succ_r. reflexivity.
Qed.

Section ExactShift.
Variables prec emax : Z.

(** Rounding a mantissa that has to be shifted left by [d] to become
    canonical is exact. *)
Lemma binary_round_shift (s : bool) (m d : positive) (e : Z) :
  fexp prec emax (Zpos (digits2_pos m) + e) = e - Zpos d ->
  e - Zpos d <= emax - prec ->
  binary_round prec emax s m e = S754_finite s (Pos.iter xO m d) (e - Zpos d).
Proof.
  intros H He. unfold binary_round, shl_align. rewrite H.
  replace (e - Zpos d - e) with (Zneg d) by lia.
  apply binary_round_aux_canonical; [|assumption].
  rewrite digits_iter_xO, Pos2Z.inj_add.
  replace (Zpos (digits2_pos m) + Zpos d + (e - Zpos d))
    with (Zpos (digits2_pos m) + e) by lia.
  assumption.
Qed.
End ExactShift.

(** A 16-bit capture value, converted to binary32 and then to binary64,
    is itself: the mantissa is the value shifted up to 53 digits. *)
Lemma double_of_capture (p : positive) :
  Zpos p <= 65535 ->
  exists (m c : positive),
    double_of_float (float_of_Z (Zpos p)) = S754_finite false m (- Zpos c) /\
    Zpos m = Zpos p * 2 ^ Zpos c /\
    digits2_pos m = 53%positive /\ 37 <= Zpos c <= 52.
Proof.
  intros Hp.
  pose proof (bounds_of_digits p) as Hb.
  assert (Hk : Zpos (digits2_pos p) <= 16).
  { destruct (Z.le_gt_cases (Zpos (digits2_pos p)) 16) as [|Hgt]; [assumption|].
    assert (2 ^ 16 <= 2 ^ (Zpos (digits2_pos p) - 1))
      by (apply Z.pow_le_mono_r; lia).
    change (2 ^ 16) with 65536 in *. lia. }
  set (k := digits2_pos p) in *.
  assert (Hd1 : exists d1 : positive, Zpos d1 = 24 - Zpos k).
  { exists (Z.to_pos (24 - Zpos k)). rewrite Z2Pos.id; lia. }
  destruct Hd1 as [d1 Hd1].
  unfold float_of_Z, binary_normalize.
  rewrite (binary_round_shift 24 128 false p d1 0).
  - unfold double_of_float.
    rewrite (binary_round_shift 53 1024 false (Pos.iter xO p d1) 29 (0 - Zpos d1)).
    + exists (Pos.iter xO (Pos.iter xO p d1) 29), (d1 + 29)%positive.
      split; [f_equal; lia|]. split; [|split].
      * rewrite !iter_xO_Z, Pos2Z.inj_add, Z.pow_add_r by lia. ring.
      * rewrite !digits_iter_xO. fold k. lia.
      * lia.
    + rewrite digits_iter_xO. fold k. unfold fexp, emin. lia.
    + lia.
  - fold k. unfold fexp, emin. lia.
  - lia.
Qed.

Lemma double_8 : double_of_Z 8 = S754_finite false 4503599627370496 (-49).
Proof. reflexivity. Qed.

Lemma double_45000000 :
  SFmul 53 1024 (double_of_Z 750000) (double_of_Z 60)
  = S754_finite false 6039797760000000 (-27).
Proof. reflexivity. Qed.

Lemma fexp53 (x : Z) : -1021 <= x -> fexp 53 1024 x = x - 53.
Proof. intros. unfold fexp, emin. lia. Qed.

(** Multiplying a normal binary64 number by 8.0 adds 3 to the exponent. *)
Lemma SFmul_8 (m : positive) (e : Z) :
  digits2_pos m = 53%positive -> -1000 <= e <= 900 ->
  SFmul 53 1024 (S754_finite false m e) (S754_finite false 4503599627370496 (-49))
  = S754_finite false m (e + 3).
Proof.
  intros Hm He. cbn [SFmul xorb]. unfold binary_round_aux at 1.
  assert (Hd : Zpos (digits2_pos (m * 4503599627370496)) = 105).
  { apply digits_of_bounds; [lia|]. pose proof (bounds_of_digits m) as Hb.
    rewrite Hm in Hb. rewrite Pos2Z.inj_mul.
    change (Zpos 4503599627370496) with (2 ^ 52).
    change (2 ^ (105 - 1)) with (2 ^ 52 * 2 ^ 52).
    change (2 ^ 105) with (2 ^ 53 * 2 ^ 52).
    change (2 ^ (Zpos 53 - 1)) with (2 ^ 52) in Hb.
    change (2 ^ Zpos 53) with (2 ^ 53) in Hb.
    split; [apply Z.mul_le_mono_nonneg_r | apply Z.mul_lt_mono_pos_r]; lia. }
  unfold shr_fexp at 1. cbn [Zdigits2]. rewrite Hd, fexp53 by lia.
  replace (105 + (e + -49) - 53 - (e + -49)) with 52 by lia.
  cbn [shr]. rewrite (Pos.mul_comm m).
  change (iter_pos shr_1 52
            (shr_record_of_loc (Zpos (4503599627370496 * m)) loc_Exact))
    with (shr_record_of_loc (Zpos m) loc_Exact).
  cbn [shr_record_of_loc shr_m loc_of_shr_record round_nearest_even].
  rewrite shr_fexp_canonical by (rewrite Hm, fexp53; lia).
  cbn [shr_record_of_loc shr_m].
  destruct (Z.leb_spec (e + -49 + 52) (1024 - 53)); [|lia].
  f_equal. lia.
Qed.

(** Division of two normal binary64 numbers: the quotient of the
    mantissas, with the dividend shifted by 53 bits, is rounded. *)
Lemma SFdiv_normal (mx my : positive) (ex ey : Z) :
  digits2_pos mx = 53%positive -> digits2_pos my = 53%positive ->
  -1000 <= ex - ey ->
  SFdiv 53 1024 (S754_finite false mx ex) (S754_finite false my ey)
  = binary_round_aux 53 1024 false
      (Zpos mx * 2 ^ 53 / Zpos my) (ex - ey - 53)
      (new_location (Zpos my) (Zpos mx * 2 ^ 53 mod Zpos my)).
Proof.
  intros Hx Hy He. unfold SFdiv, SFdiv_core_binary. cbn [Zdigits2 xorb].
  rewrite Hx, Hy.
  replace (Z.min (fexp 53 1024 (53 + ex - (53 + ey))) (ex - ey))
    with (ex - ey - 53) by (rewrite fexp53; lia).
  replace (ex - ey - (ex - ey - 53)) with 53 by lia.
  rewrite Z.shiftl_mul_pow2 by lia.
  unfold Z.div, Z.modulo.
  destruct (Z.div_eucl (Zpos mx * 2 ^ 53) (Zpos my)) as [q r]. reflexivity.
Qed.

Lemma round_nearest_even_bounds (m : Z) (l : location) :
  m <= round_nearest_even m l <= m + 1.
Proof.
  destruct l as [|[]]; cbn [round_nearest_even]; try destruct (Z.even m); lia.
Qed.

Lemma shr_1_m (mrs : shr_record) :
  0 <= shr_m mrs -> shr_m (shr_1 mrs) = shr_m mrs / 2.
Proof.
  destruct mrs as [m r s]. cbn [shr_m]. intros Hm.
  rewrite <- Z.div2_div.
  destruct m as [|[p|p|]|p]; try reflexivity. lia.
Qed.

(** The second normalisation step of [binary_round_aux]: a mantissa of 53
    digits stays, and [2 ^ 53] becomes [2 ^ 52] one exponent up. *)
Lemma round_finish (r : positive) (e : Z) :
  2 ^ 52 <= Zpos r <= 2 ^ 53 -> -1074 <= e <= 900 ->
  exists (m : positive) (j : Z),
    (let '(mrs, e') := shr_fexp 53 1024 (Zpos r) e loc_Exact in
     match shr_m mrs with
     | Z0 => S754_zero false
     | Zpos m => if e' <=? 1024 - 53 then S754_finite false m e'
                 else S754_infinity false
     | Zneg _ => S754_nan
     end) = S754_finite false m (e + j) /\
    0 <= j <= 1 /\ Zpos m = Zpos r / 2 ^ j.
Proof.
  intros Hr He. destruct (Z.eq_dec (Zpos r) (2 ^ 53)) as [E|N].
  - exists 4503599627370496%positive, 1.
    inversion E; subst r. unfold shr_fexp. cbn [Zdigits2 digits2_pos Pos.succ].
    rewrite fexp53 by lia. replace (54 + e - 53 - e) with 1 by lia.
    cbn [shr iter_pos shr_record_of_loc shr_1 shr_m].
    destruct (Z.leb_spec (e + 1) (1024 - 53)); [|lia].
    split; [reflexivity|]. split; [lia | reflexivity].
  - exists r, 0.
    assert (Hd : Zpos (digits2_pos r) = 53)
      by (apply digits_of_bounds; [lia | change (2 ^ (53 - 1)) with (2 ^ 52); lia]).
    rewrite shr_fexp_canonical by (rewrite Hd; unfold fexp, emin; lia).
    cbn [shr_record_of_loc shr_m].
    destruct (Z.leb_spec e (1024 - 53)); [|lia].
    rewrite Z.add_0_r, Z.pow_0_r, Z.div_1_r. split; [reflexivity|]. lia.
Qed.

(** Rounding a quotient of 53 or 54 digits to binary64: the mantissa that
    comes out is the quotient with its low [j] bits dropped, or that plus
    one, [j] being at most 2. *)
Lemma round_aux_bounds (q : positive) (e : Z) (l : location) :
  2 ^ 52 <= Zpos q < 2 ^ 54 -> -1074 <= e <= 800 ->
  exists (m : positive) (j : Z),
    binary_round_aux 53 1024 false (Zpos q) e l = S754_finite false m (e + j) /\
    0 <= j <= 2 /\
    Zpos q / 2 ^ j <= Zpos m <= Zpos q / 2 ^ j + 1.
Proof.
  intros Hq He. unfold binary_round_aux.
  destruct (Z.lt_ge_cases (Zpos q) (2 ^ 53)) as [Hlt|Hge].
  - assert (Hd : Zpos (digits2_pos q) = 53)
      by (apply digits_of_bounds; [lia | change (2 ^ (53 - 1)) with (2 ^ 52); lia]).
    rewrite shr_fexp_canonical by (rewrite Hd; unfold fexp, emin; lia).
    rewrite shr_record_of_loc_m, loc_of_shr_record_of_loc.
    pose proof (round_nearest_even_bounds (Zpos q) l) as Hr.
    destruct (round_nearest_even (Zpos q) l) as [|r|r] eqn:Er; try lia.
    destruct (round_finish r e) as (m & j & Hm & Hj & Hv); [lia | lia |].
    exists m, j. split; [exact Hm|]. split; [lia|]. rewrite Hv.
    assert (Hj2 : j = 0 \/ j = 1) by lia.
    destruct Hj2; subst j; cbn [Z.pow Z.pow_pos Pos.iter Z.mul Pos.mul];
      rewrite ?Z.div_1_r; split; try lia;
      try (apply Z.div_le_mono; lia).
    apply (Z.le_trans _ ((Zpos q + 1 * 2) / 2)); [apply Z.div_le_mono; lia|].
    rewrite Z.div_add by lia. lia.
  - assert (Hd : Zpos (digits2_pos q) = 54)
      by (apply digits_of_bounds; [lia | change (2 ^ (54 - 1)) with (2 ^ 53); lia]).
    unfold shr_fexp at 1. cbn [Zdigits2]. rewrite Hd, fexp53 by lia.
    replace (54 + e - 53 - e) with 1 by lia. cbn [shr iter_pos].
    pose proof (shr_1_m (shr_record_of_loc (Zpos q) l)) as Hh.
    rewrite shr_record_of_loc_m in Hh. specialize (Hh ltac:(lia)).
    set (mrs := shr_1 (shr_record_of_loc (Zpos q) l)) in *.
    pose proof (round_nearest_even_bounds (shr_m mrs) (loc_of_shr_record mrs)) as Hr.
    rewrite Hh in *.
    assert (Hhalf : 2 ^ 52 <= Zpos q / 2 < 2 ^ 53).
    { split; [apply Z.div_le_lower_bound | apply Z.div_lt_upper_bound]; lia. }
    destruct (round_nearest_even (Zpos q / 2) (loc_of_shr_record mrs))
      as [|r|r] eqn:Er; try lia.
    destruct (round_finish r (e + 1)) as (m & j & Hm & Hj & Hv); [lia | lia |].
    exists m, (1 + j). split; [rewrite Hm; f_equal; lia|]. split; [lia|].
    rewrite Hv, Z.pow_add_r, <- Z.div_div by lia.
    change (2 ^ 1) with 2.
    assert (Hj2 : j = 0 \/ j = 1) by lia.
    destruct Hj2; subst j; cbn [Z.pow Z.pow_pos Pos.iter Z.mul Pos.mul];
      rewrite ?Z.div_1_r; split; try lia;
      try (apply Z.div_le_mono; lia).
    apply (Z.le_trans _ ((Zpos q / 2 + 1 * 2) / 2)); [apply Z.div_le_mono; lia|].
    rewrite Z.div_add by lia. lia.
Qed.

Lemma trunc_arith (t W D J Q a m n : Z) :
  0 < t -> 0 < D -> 1 <= J <= 4 -> W = D * J -> 4 * t < W ->
  Q = 5625000 * W / t -> a = Q / J -> a <= m <= a + 1 -> n = 5625000 / t ->
  m / D = n.
Proof.
  intros Ht HD HJ HW Hbig HQ Ha Hm Hn.
  assert (Hn1 : t * n <= 5625000 < t * (n + 1)).
  { subst n. split; [apply Z.mul_div_le; lia|].
    rewrite Z.mul_add_distr_l, Z.mul_1_r.
    pose proof (Z.mod_pos_bound 5625000 t Ht).
    pose proof (Z.div_mod 5625000 t ltac:(lia)). lia. }
  assert (HQ1 : t * Q <= 5625000 * W < t * (Q + 1)).
  { subst Q. split; [apply Z.mul_div_le; lia|].
    rewrite Z.mul_add_distr_l, Z.mul_1_r.
    pose proof (Z.mod_pos_bound (5625000 * W) t Ht).
    pose proof (Z.div_mod (5625000 * W) t ltac:(lia)). lia. }
  assert (Ha1 : J * a <= Q < J * (a + 1)).
  { subst a. split; [apply Z.mul_div_le; lia|].
    rewrite Z.mul_add_distr_l, Z.mul_1_r.
    pose proof (Z.mod_pos_bound Q J ltac:(lia)).
    pose proof (Z.div_mod Q J ltac:(lia)). lia. }
  symmetry. apply (Z.div_unique_pos m D n (m - D * n)); [|lia].
  assert (Hlow : D * n <= a).
  { (* n * W <= Q, hence n * D <= Q / J *)
    assert (t * (n * W) <= t * (Q + 1) - 1) by nia.
    assert (n * W < Q + 1) by nia.
    assert (J * (D * n) < J * (a + 1)) by nia.
    nia. }
  assert (Hup : a + 1 < D * (n + 1)).
  { destruct (Z.lt_ge_cases (a + 1) (D * (n + 1))) as [|Hge]; [assumption|].
    exfalso.
    (* a * J * t >= (n+1) * W * t - J * t, and Q * t <= (n+1) * t * W - W *)
    assert (H1 : J * a * t <= 5625000 * W) by nia.
    assert (H2 : 5625000 * W <= (t * (n + 1) - 1) * W) by nia.
    assert (H3 : (D * (n + 1) - 1) * (J * t) <= J * a * t) by nia.
    assert (H4 : W <= J * t) by nia.
    nia. }
  lia.
Qed.

Lemma quotient_trunc (t : Z) :
  1 <= t <= 65535 -> SFtrunc (quotient t) = Some (45000000 / (t * 8)).
Proof.
  intros Ht. destruct t as [|p|p]; try lia.
  unfold quotient.
  rewrite double_45000000, double_8.
  destruct (double_of_capture p) as (my & c & Hy & Hmy & Hdy & Hc); [lia|].
  rewrite Hy, SFmul_8 by (assumption || lia).
  rewrite SFdiv_normal by (reflexivity || assumption || lia).
  pose proof (bounds_of_digits my) as Hb. rewrite Hdy in Hb.
  change (2 ^ (Zpos 53 - 1)) with (2 ^ 52) in Hb.
  change (2 ^ Zpos 53) with (2 ^ 53) in Hb.
  set (Q := Zpos 6039797760000000 * 2 ^ 53 / Zpos my).
  assert (HQ : 2 ^ 52 <= Q < 2 ^ 54).
  { subst Q. split; [apply Z.div_le_lower_bound | apply Z.div_lt_upper_bound]; lia. }
  destruct Q as [|q|q] eqn:EQ; try lia.
  destruct (round_aux_bounds q (-27 - (- Zpos c + 3) - 53)
              (new_location (Zpos my)
                 ((Zpos 6039797760000000 * 2 ^ 53) mod Zpos my)))
    as (m & j & Hr & Hj & Hm); [assumption | lia |].
  rewrite Hr. unfold SFtrunc.
  destruct (-27 - (- Zpos c + 3) - 53 + j) as [|pe|pe] eqn:Ee; try lia.
  rewrite Z.shiftr_div_pow2 by lia.
  set (W := 2 ^ (83 - Zpos c)).
  assert (HW : 2 ^ Zpos c * W = 2 ^ 83)
    by (subst W; rewrite <- Z.pow_add_r by lia; f_equal; lia).
  assert (HWpos : 0 < W) by (subst W; apply Z.pow_pos_nonneg; lia).
  assert (HD : 0 < 2 ^ Zpos pe) by (apply Z.pow_pos_nonneg; lia).
  assert (HJ : 1 <= 2 ^ j <= 4).
  { assert (Hj3 : j = 0 \/ j = 1 \/ j = 2) by lia.
    destruct Hj3 as [->|[->| ->]]; cbn; lia. }
  assert (HDJ : W = 2 ^ Zpos pe * 2 ^ j).
  { subst W. rewrite <- Z.pow_add_r by lia. f_equal. lia. }
  assert (Hbig : 4 * Zpos p < W).
  { rewrite Hmy in Hb.
    assert (H : Zpos p * 2 ^ Zpos c * W < 2 ^ 53 * W)
      by (apply Z.mul_lt_mono_pos_r; lia).
    replace (Zpos p * 2 ^ Zpos c * W) with (Zpos p * 2 ^ 83) in H
      by (rewrite <- HW; ring).
    change (2 ^ 83) with (2 ^ 53 * 1073741824) in H.
    assert (0 < 2 ^ 53) by reflexivity. nia. }
  assert (HQW : Zpos q = 5625000 * W / Zpos p).
  { rewrite <- EQ. subst Q. rewrite Hmy.
    replace (Zpos 6039797760000000 * 2 ^ 53)
      with (5625000 * W * 2 ^ Zpos c)
      by (rewrite <- Z.mul_assoc, (Z.mul_comm W), HW; reflexivity).
    apply Z.div_mul_cancel_r; [lia|].
    apply Z.pow_nonzero; lia. }
  assert (Hn8 : 45000000 / (Zpos p * 8) = 5625000 / Zpos p).
  { change 45000000 with (5625000 * 8). apply Z.div_mul_cancel_r; lia. }
  assert (Hval : Zpos m / 2 ^ Zpos pe = 45000000 / (Zpos p * 8)).
  { apply (trunc_arith (Zpos p) W (2 ^ Zpos pe) (2 ^ j) (Zpos q)
             (Zpos q / 2 ^ j)); auto; lia. }
  rewrite Hval. reflexivity.
Qed.

Lemma rpm_of_capture_spec (t : Z) :
  1 <= t <= 65535 ->
  rpm_of_capture t
  = if 45000000 / (t * 8) <=? 65535 then Some (45000000 / (t * 8)) else None.
Proof.
  intros Ht. unfold rpm_of_capture.
  destruct (Z.eqb_spec t 0); [lia|].
  unfold double_to_uint16. rewrite quotient_trunc by assumption. cbn [bind].
  destruct (Z.leb_spec 0 (45000000 / (t * 8))) as [|Hneg]; [reflexivity|].
  assert (0 <= 45000000 / (t * 8)) by (apply Z.div_pos; lia). lia.
Qed.

Lemma rpm_of_capture_floor (t : Z) :
  86 <= t <= 65535 -> rpm_of_capture t = Some (45000000 / (t * 8)).
Proof.
  intros Ht. rewrite rpm_of_capture_spec by lia.
  destruct (Z.leb_spec (45000000 / (t * 8)) 65535) as [|Hbig]; [reflexivity|].
  assert (45000000 / (t * 8) < 65536)
    by (apply Z.div_lt_upper_bound; lia).
  lia.
Qed.

Lemma rpm_of_capture_overflow (t : Z) :
  1 <= t <= 85 -> rpm_of_capture t = None.
Proof.
  intros Ht. rewrite rpm_of_capture_spec by lia.
  destruct (Z.leb_spec (45000000 / (t * 8)) 65535) as [Hle|]; [|reflexivity].
  assert (65536 <= 45000000 / (t * 8))
    by (apply Z.div_le_lower_bound; lia).
  lia.
Qed.

(** C4, as stated, does not hold: the cast discards the fraction, so at
    999 ticks (exact quotient 5630.63) the result is 5630, not the
    nearest integer 5631; and at 85 ticks the quotient is above 65535, so
    the conversion to [uint16_t] has no defined result. *)
Lemma conversion_not_nearest :
  rpm_of_capture 999 = Some 5630 /\
  ~ nearest_integer (750000 * 60) (999 * 8) 5630 /\
  nearest_integer (750000 * 60) (999 * 8) 5631 /\
  rpm_of_capture 85 = None.
Proof.
  split; [rewrite rpm_of_capture_floor by lia; reflexivity|].
  split; [unfold nearest_integer; cbn; lia|].
  split; [unfold nearest_integer; cbn; lia|].
  apply rpm_of_capture_overflow. lia.
Qed.

Lemma rpmtoLS_render_total (s : state) :
  exists s', rpmtoLS_render s = Some s' /\
             rpm s' = rpm s /\ ledsON s' = litCount (rpm s) /\
             rpmCaptureValue s' = rpmCaptureValue s.
Proof.
  unfold rpmtoLS_render. rewrite clearLS_spec. cbn [bind].
  cbn [ledsON set_i set_TXBUF set_ledsON LSflash_flag].
  destruct (Z.ltb_spec NUM_LEDS (litCount (rpm s))) as [Hhi|Hlo].
  - destruct (LSflash_flag s).
    + rewrite all_red_spec. eexists. split; [reflexivity|]. auto.
    + rewrite clearLS_spec. eexists. split; [reflexivity|]. auto.
  - assert (H0 : 0 <= litCount (rpm s)) by apply u8_range.
    unfold for_i.
    change (fun s1 => let s2 := (let '(r, g, b) := led_at s1 in sendLS r g b s1) in
                      set_i (i s2 + 1) s2) with bar_body.
    rewrite (bar_loop (Z.to_nat (litCount (rpm s))) loop_fuel 0).
    + eexists. split; [reflexivity|]. auto.
    + unfold loop_fuel. change NUM_LEDS with 30 in Hlo. lia.
    + reflexivity.
    + cbn [Nat.add ledsON set_i sendLS_START sendSPIbyte set_TXBUF set_ledsON].
      rewrite Z2Nat.id by lia. reflexivity.
Qed.

(** C4 (amended): a zero tick count gives speed 0; for every tick count
    from 86 to 65535 the result is the integer part of
    (750000 * 60) / (t * 8), the exact quotient rounded toward zero, and
    [rpmtoLS] stores it in [rpm]; for tick counts 1 to 85 the quotient
    does not fit the 16-bit [rpm] and the conversion has no defined
    result. *)
Theorem rpm_conversion_truncates (t : Z) :
  0 <= t <= 65535 ->
  (t = 0 -> rpm_of_capture t = Some 0) /\
  (86 <= t ->
   exists r,
     rpm_of_capture t = Some r /\
     r = (750000 * 60) / (t * 8) /\
     r * (t * 8) <= 750000 * 60 < (r + 1) * (t * 8) /\
     forall s, rpmCaptureValue s = t ->
               exists s', rpmtoLS s = Some s' /\ rpm s' = r) /\
  (1 <= t <= 85 -> rpm_of_capture t = None).
Proof.
  intros Ht. split; [intros ->; reflexivity|].
  split; [|apply rpm_of_capture_overflow].
  intros H86. exists (45000000 / (t * 8)).
  assert (Hr : rpm_of_capture t = Some (45000000 / (t * 8)))
    by (apply rpm_of_capture_floor; lia).
  split; [exact Hr|]. split; [reflexivity|]. split.
  - change (750000 * 60) with 45000000.
    pose proof (Z.div_mod 45000000 (t * 8) ltac:(lia)).
    pose proof (Z.mod_pos_bound 45000000 (t * 8) ltac:(lia)). lia.
  - intros s Hs. unfold rpmtoLS. rewrite Hs, Hr. cbn [bind].
    destruct (rpmtoLS_render_total (set_rpm (45000000 / (t * 8)) s))
      as (s' & Hrun & Hrpm & _).
    exists s'. split; [exact Hrun | exact Hrpm].
Qed.

Lemma rpm_conversion_truncates_witness :
  0 <= 937 <= 65535 /\ rpm_of_capture 937 = Some 6003.
Proof.
  split; [lia|].
  destruct (rpm_conversion_truncates 937 ltac:(lia)) as (_ & H & _).
  destruct (H ltac:(lia)) as (r & Hr & -> & _). exact Hr.
Defined.

(** ** Start-up and defined runs *)

Lemma main_startup_init (p4 p6 p8 : Z) :
  main_startup (power_on p4 p6 p8) = Some (init_state p8).
Proof.
  unfold main_startup, pinInit, power_on.
  cbn [P4OUT P6IFG P8OUT set_P4OUT set_P6IFG set_P8OUT].
  rewrite !u8_clear_all. reflexivity.
Qed.

Lemma u16_range (x : Z) : 0 <= u16 x <= 65535.
Proof.
  unfold u16. pose proof (Z.mod_pos_bound x 65536 ltac:(lia)). lia.
Qed.

Lemma rpmtoLS_total (s : state) :
  0 <= rpmCaptureValue s <= 65535 -> capture_ok (rpmCaptureValue s) = true ->
  exists s', rpmtoLS s = Some s' /\ rpmCaptureValue s' = rpmCaptureValue s.
Proof.
  intros Hr Hok. unfold rpmtoLS.
  assert (Hc : exists r, rpm_of_capture (rpmCaptureValue s) = Some r).
  { unfold capture_ok in Hok. apply orb_true_iff in Hok.
    destruct Hok as [H0|H86].
    - apply Z.eqb_eq in H0. rewrite H0. exists 0. reflexivity.
    - apply Z.leb_le in H86. eexists. apply rpm_of_capture_floor. lia. }
  destruct Hc as [r ->]. cbn [bind].
  destruct (rpmtoLS_render_total (set_rpm r s)) as (s' & Hrun & _ & _ & Hcap).
  exists s'. split; [exact Hrun | exact Hcap].
Qed.

Lemma gear_update_capture (s : state) :
  rpmCaptureValue (gear_update s) = rpmCaptureValue s.
Proof.
  unfold gear_update.
  destruct (up_flag s && (gearIndex s <? 6)); [reflexivity|].
  destruct (down_flag s && (1 <? gearIndex s)); reflexivity.
Qed.

Lemma handler_capture (s : state) :
  rpmCaptureValue (PORT6_IRQHandler s) = rpmCaptureValue s.
Proof.
  unfold PORT6_IRQHandler.
  destruct (bit_set (P6IFG s) BIT0); [reflexivity|].
  destruct (bit_set (P6IFG s) BIT1); [reflexivity|].
  destruct (bit_set (P6IFG s) BIT4); [reflexivity|].
  destruct (bit_set (P6IFG s) BIT5); reflexivity.
Qed.

(** A run whose tachometer captures are all zero or at least 86 ticks
    never meets the undefined conversion: it reaches a state. *)
Lemma run_defined (evs : list event) :
  forall s,
    0 <= rpmCaptureValue s <= 65535 -> capture_ok (rpmCaptureValue s) = true ->
    forallb event_ok evs = true ->
    exists s', run evs s = Some s'.
Proof.
  induction evs as [|e evs IH]; intros s Hr Hok Hevs.
  - exists s. reflexivity.
  - cbn [forallb] in Hevs. apply andb_true_iff in Hevs.
    destruct Hevs as [He Hevs]. cbn [run].
    destruct e as [lines|ccr| |]; cbn [step bind].
    + apply IH; [rewrite handler_capture | rewrite handler_capture |];
        assumption.
    + apply IH; [apply u16_range | exact He | assumption].
    + apply IH; assumption.
    + unfold main_loop_body. destruct (LSflag s).
      * destruct (rpmtoLS_total s Hr Hok) as (s1 & -> & Hcap). cbn [bind].
        apply IH; [| |assumption]; rewrite gear_update_capture;
          cbn [rpmCaptureValue set_LSflag]; rewrite Hcap; assumption.
      * cbn [bind]. apply IH; [| |assumption]; rewrite gear_update_capture;
          assumption.
Qed.

(** * Further properties of the code *)

(** ** The port-6 handler: what it leaves alone, and its stores *)

(** X1: the handler's whole effect.  It clears [P6IFG], writes [P8OUT]
    without touching any bit of its low byte other than the relay bits 4
    and 5, sets [up_flag] or [down_flag] when it services the matching
    hall line and never clears either, and changes nothing else: not the
    gear, the display port, the capture, the flags of the renderer or the
    bytes sent. *)
Theorem handler_effect (s : state) :
  exists p : Z,
    PORT6_IRQHandler s
    = set_P6IFG 0
        (set_P8OUT p
           (set_up_flag
              (up_flag s || match serviced (P6IFG s) with
                            | Some UpShiftConfirmed => true
                            | _ => false
                            end)
              (set_down_flag
                 (down_flag s || match serviced (P6IFG s) with
                                 | Some DownShiftConfirmed => true
                                 | _ => false
                                 end) s))) /\
    forall k, 0 <= k < 8 -> k <> 4 -> k <> 5 ->
              Z.testbit p k = Z.testbit (P8OUT s) k.
Proof.
  assert (Hbit : forall m k, 0 <= k < 8 -> k <> 4 -> k <> 5 ->
            (m = BIT4 \/ m = BIT5 \/ m = 0x30) -> Z.testbit m k = false).
  { intros m k Hk H4 H5 Hm.
    assert (Hc : k = 0 \/ k = 1 \/ k = 2 \/ k = 3 \/ k = 6 \/ k = 7) by lia.
    destruct Hm as [->|[->| ->]];
      destruct Hc as [->|[->|[->|[->|[->| ->]]]]]; reflexivity. }
  unfold PORT6_IRQHandler, serviced.
  destruct (bit_set (P6IFG s) BIT0).
  { eexists. split.
    - cbn [P6IFG P8OUT set_P8OUT set_P6IFG].
      rewrite u8_clear_all, !orb_false_r. reflexivity.
    - intros k Hk H4 H5.
      cbn [P8OUT set_P8OUT set_up_flag set_down_flag]. bits.
      rewrite (Hbit BIT4), (Hbit BIT5) by auto.
      rewrite orb_false_r. apply andb_true_r. }
  destruct (bit_set (P6IFG s) BIT1).
  { eexists. split.
    - cbn [P6IFG P8OUT set_P8OUT set_P6IFG].
      rewrite u8_clear_all, !orb_false_r. reflexivity.
    - intros k Hk H4 H5.
      cbn [P8OUT set_P8OUT set_up_flag set_down_flag]. bits.
      rewrite (Hbit BIT4), (Hbit BIT5) by auto.
      rewrite orb_false_r. apply andb_true_r. }
  destruct (bit_set (P6IFG s) BIT4).
  { eexists. split.
    - cbn [P6IFG P8OUT set_P8OUT set_P6IFG set_up_flag].
      rewrite u8_clear_all, orb_true_r, orb_false_r. reflexivity.
    - intros k Hk H4 H5.
      cbn [P8OUT set_P8OUT set_up_flag set_down_flag]. bits. rewrite (Hbit 0x30) by auto.
      apply andb_true_r. }
  destruct (bit_set (P6IFG s) BIT5).
  { eexists. split.
    - cbn [P6IFG P8OUT set_P8OUT set_P6IFG set_down_flag].
      rewrite u8_clear_all, orb_true_r, orb_false_r. reflexivity.
    - intros k Hk H4 H5.
      cbn [P8OUT set_P8OUT set_up_flag set_down_flag]. bits. rewrite (Hbit 0x30) by auto.
      apply andb_true_r. }
  exists (P8OUT s). split; [|reflexivity].
  cbn [P6IFG]. rewrite u8_clear_all, !orb_false_r. reflexivity.
Qed.

Lemma relay_of_bits (p : Z) :
  relay_of p
  = match Z.testbit p 4, Z.testbit p 5 with
    | false, false => Some Idle
    | true, false => Some UpRelayEngaged
    | false, true => Some DownRelayEngaged
    | true, true => None
    end.
Proof. unfold relay_of. rewrite bit_set_BIT4, bit_set_BIT5. reflexivity. Qed.

(** X2: the handler's stores to the relay port, one by one.  The last
    store is the value the handler leaves; and some store drives both
    relays at once exactly when a paddle is serviced while the opposite
    relay is engaged: the branch sets its own relay bit before it clears
    the other. *)
Theorem handler_store_overlap (s : state) (r : RelayState) :
  relay_of (P8OUT s) = Some r ->
  last (PORT6_P8OUT_stores s) (P8OUT s) = P8OUT (PORT6_IRQHandler s) /\
  (Exists (fun p => relay_of p = None) (PORT6_P8OUT_stores s) <->
   (serviced (P6IFG s) = Some UpPaddlePulled /\ r = DownRelayEngaged) \/
   (serviced (P6IFG s) = Some DownPaddlePulled /\ r = UpRelayEngaged)).
Proof.
  intros Hr. split.
  - unfold PORT6_P8OUT_stores, PORT6_IRQHandler.
    destruct (bit_set (P6IFG s) BIT0); [reflexivity|].
    destruct (bit_set (P6IFG s) BIT1); [reflexivity|].
    destruct (bit_set (P6IFG s) BIT4); [reflexivity|].
    destruct (bit_set (P6IFG s) BIT5); reflexivity.
  - rewrite relay_of_bits in Hr.
    unfold PORT6_P8OUT_stores, serviced.
    destruct (bit_set (P6IFG s) BIT0).
    { cbv zeta. rewrite Exists_cons, Exists_cons, Exists_nil.
      rewrite relay_after_up, relay_of_bits. bits.
      change (Z.testbit BIT4 4) with true. change (Z.testbit BIT4 5) with false.
      rewrite orb_true_r, orb_false_r.
      destruct (Z.testbit (P8OUT s) 4), (Z.testbit (P8OUT s) 5);
        inversion Hr; subst; split; intros H;
        repeat match goal with
               | H : _ \/ _ |- _ => destruct H
               | H : _ /\ _ |- _ => destruct H
               | H : False |- _ => destruct H
               end; try discriminate; auto. }
    destruct (bit_set (P6IFG s) BIT1).
    { cbv zeta. rewrite Exists_cons, Exists_cons, Exists_nil.
      rewrite relay_after_down, relay_of_bits. bits.
      change (Z.testbit BIT5 4) with false. change (Z.testbit BIT5 5) with true.
      rewrite orb_true_r, orb_false_r.
      destruct (Z.testbit (P8OUT s) 4), (Z.testbit (P8OUT s) 5);
        inversion Hr; subst; split; intros H;
        repeat match goal with
               | H : _ \/ _ |- _ => destruct H
               | H : _ /\ _ |- _ => destruct H
               | H : False |- _ => destruct H
               end; try discriminate; auto. }
    assert (Hoff : Exists (fun p => relay_of p = None)
                     [u8 (Z.land (P8OUT s) (Z.lnot 0x30))] <-> False).
    { rewrite Exists_cons, Exists_nil, relay_after_off.
      split; [intros [H|H]; [discriminate H | exact H] | intros []]. }
    destruct (bit_set (P6IFG s) BIT4).
    { rewrite Hoff. split; [intros [] | intros [[H _]|[H _]]; discriminate H]. }
    destruct (bit_set (P6IFG s) BIT5).
    { rewrite Hoff. split; [intros [] | intros [[H _]|[H _]]; discriminate H]. }
    rewrite Exists_nil.
    split; [intros [] | intros [[H _]|[H _]]; discriminate H].
Qed.

Lemma handler_store_overlap_witness :
  let s := set_P6IFG BIT0 down_engaged in
  relay_of (P8OUT s) = Some DownRelayEngaged /\
  Exists (fun p => relay_of p = None) (PORT6_P8OUT_stores s).
Proof.
  intros s.
  assert (H : relay_of (P8OUT s) = Some DownRelayEngaged) by reflexivity.
  split; [exact H|].
  apply (proj2 (handler_store_overlap s DownRelayEngaged H)).
  left. split; reflexivity.
Defined.

(** X3: there is no timeout.  Along a run without port-6 interrupts,
    however many timer interrupts and main-loop iterations it holds, the
    relay port keeps its value: an engaged relay stays engaged until a
    port-6 edge arrives. *)
Theorem relay_held_without_port6 (evs : list event) (s s' : state) :
  forallb not_port6 evs = true -> run evs s = Some s' ->
  P8OUT s' = P8OUT s /\ relay_of (P8OUT s') = relay_of (P8OUT s).
Proof.
  intros Hev Hrun.
  assert (H : P8OUT s' = P8OUT s); [|split; [exact H | rewrite H; reflexivity]].
  revert s Hev Hrun. induction evs as [|e evs IH]; intros s Hev Hrun.
  - inversion Hrun. reflexivity.
  - cbn [forallb] in Hev. apply andb_true_iff in Hev. destruct Hev as [He Hev].
    cbn [run] in Hrun. destruct (step e s) as [s1|] eqn:E; [|discriminate].
    cbn [bind] in Hrun. rewrite (IH s1 Hev Hrun).
    destruct e as [lines|ccr| |]; cbn [step not_port6] in E, He.
    + discriminate.
    + inversion E. reflexivity.
    + inversion E. reflexivity.
    + unfold main_loop_body in E. destruct (LSflag s).
      * destruct (rpmtoLS s) as [s0|] eqn:E0; [|discriminate].
        cbn [bind] in E.
        assert (Es : s1 = gear_update (set_LSflag false s0)) by congruence.
        apply rpmtoLS_gear_view in E0. unfold gear_view in E0.
        rewrite Es, gear_update_P8OUT. cbn [P8OUT set_LSflag]. congruence.
      * cbn [bind] in E.
        assert (Es : s1 = gear_update s) by congruence.
        rewrite Es. apply gear_update_P8OUT.
Qed.

Lemma relay_held_without_port6_witness :
  let evs := [FlashTick; MainIteration; TachCapture 937; MainIteration] in
  forallb not_port6 evs = true /\
  (exists s', run evs up_engaged = Some s' /\
              relay_of (P8OUT s') = Some UpRelayEngaged).
Proof.
  intros evs.
  assert (H1 : forallb not_port6 evs = true) by reflexivity.
  split; [exact H1|].
  destruct (run evs up_engaged) as [s'|] eqn:E.
  - exists s'. split; [reflexivity|].
    rewrite (proj2 (relay_held_without_port6 evs up_engaged s' H1 E)).
    reflexivity.
  - exfalso.
    destruct (run_defined evs up_engaged) as [s' Hs']; try reflexivity.
    + cbn; lia.
    + congruence.
Defined.

(** ** The renderer: what one call sends and what it leaves alone *)

Lemma render_effect (s : state) :
  exists n,
    0 <= n <= 31 /\
    rpmtoLS_render s
    = Some (set_i n
              (set_TXBUF
                 (rev (render_bytes (lightstrip s) (LSflash_flag s)
                         (litCount (rpm s))) ++ TXBUF s)
                 (set_ledsON (litCount (rpm s)) s))).
Proof.
  unfold rpmtoLS_render, render_bytes. rewrite clearLS_spec. cbn [bind].
  cbn [ledsON set_i set_TXBUF set_ledsON LSflash_flag].
  destruct (Z.ltb_spec NUM_LEDS (litCount (rpm s))) as [Hhi|Hlo].
  - destruct (LSflash_flag s).
    + rewrite all_red_spec. exists NUM_LEDS. split; [cbv; intuition discriminate|].
      cbn [TXBUF set_i set_TXBUF set_ledsON].
      rewrite rev_app_distr, <- app_assoc. reflexivity.
    + rewrite clearLS_spec. exists (NUM_LEDS + 1).
      split; [cbv; intuition discriminate|].
      cbn [TXBUF set_i set_TXBUF set_ledsON].
      rewrite rev_app_distr, <- app_assoc. reflexivity.
  - assert (H0 : 0 <= litCount (rpm s)) by apply u8_range.
    change NUM_LEDS with 30 in Hlo.
    unfold for_i.
    change (fun s1 => let s2 := (let '(r, g, b) := led_at s1 in sendLS r g b s1) in
                      set_i (i s2 + 1) s2) with bar_body.
    rewrite (bar_loop (Z.to_nat (litCount (rpm s))) loop_fuel 0).
    + exists (litCount (rpm s)). split; [lia|].
      cbn [Nat.add lightstrip TXBUF set_i set_TXBUF set_ledsON sendLS_START
             sendSPIbyte].
      rewrite Z2Nat.id by lia.
      rewrite !rev_app_distr, <- !app_assoc. reflexivity.
    + unfold loop_fuel. lia.
    + reflexivity.
    + cbn [Nat.add ledsON set_i sendLS_START sendSPIbyte set_TXBUF set_ledsON].
      rewrite Z2Nat.id by lia. reflexivity.
Qed.

Lemma rpm_of_capture_range (t r : Z) :
  rpm_of_capture t = Some r -> 0 <= r <= 65535.
Proof.
  unfold rpm_of_capture, double_to_uint16.
  destruct (t =? 0); [intros E; inversion E; lia|].
  destruct (SFtrunc (quotient t)) as [n|]; cbn [bind]; [|discriminate].
  destruct (Z.leb_spec 0 n) as [Hlo|]; cbn [andb]; [|discriminate].
  destruct (Z.leb_spec n 65535) as [Hhi|]; [|discriminate].
  intros E; inversion E; subst. lia.
Qed.

Lemma rpmtoLS_effect (s s' : state) :
  rpmtoLS s = Some s' ->
  exists r n,
    rpm_of_capture (rpmCaptureValue s) = Some r /\
    0 <= r <= 65535 /\ 0 <= n <= 31 /\
    s' = set_i n
           (set_TXBUF
              (rev (render_bytes (lightstrip s) (LSflash_flag s) (litCount r))
               ++ TXBUF s)
              (set_ledsON (litCount r) (set_rpm r s))).
Proof.
  unfold rpmtoLS.
  destruct (rpm_of_capture (rpmCaptureValue s)) as [r|] eqn:Er; [|discriminate].
  cbn [bind]. destruct (render_effect (set_rpm r s)) as (n & Hn & ->).
  intros H. exists r, n. split; [reflexivity|].
  split; [exact (rpm_of_capture_range _ _ Er)|]. split; [exact Hn|].
  symmetry.
  exact (f_equal (fun o => match o with Some x => x | None => s' end) H).
Qed.

Lemma gear_update_effect (s : state) :
  exists g p u d,
    gear_update s
    = set_down_flag d (set_up_flag u (set_P4OUT p (set_gearIndex g s))).
Proof.
  unfold gear_update.
  destruct (up_flag s && (gearIndex s <? 6)).
  { exists (u8 (gearIndex s + 1)),
      (u8 (Z.land (u8 (Z.lor (P4OUT s) (at_index gearON (u8 (gearIndex s + 1)))))
                  (Z.lnot (at_index gearOFF (u8 (gearIndex s + 1)))))),
      false, (down_flag s).
    reflexivity. }
  destruct (down_flag s && (1 <? gearIndex s)).
  { exists (u8 (gearIndex s - 1)),
      (u8 (Z.land (u8 (Z.lor (P4OUT s) (at_index gearON (u8 (gearIndex s - 1)))))
                  (Z.lnot (at_index gearOFF (u8 (gearIndex s - 1)))))),
      (up_flag s), false.
    reflexivity. }
  exists (gearIndex s), (P4OUT s), (up_flag s), (down_flag s). reflexivity.
Qed.

Lemma length_concat_wire (cs : list color) :
  length (concat (map wire cs)) = (4 * length cs)%nat.
Proof.
  induction cs as [|[[r g] b] cs IH]; [reflexivity|].
  cbn [map concat wire length app]. rewrite IH. lia.
Qed.

Lemma length_render_bytes (tbl : list color) (flash : bool) (k : Z) :
  Z.of_nat (length (render_bytes tbl flash k))
  = if NUM_LEDS <? k then if flash then 252 else 256
    else 132 + 4 * Z.max 0 k.
Proof.
  unfold render_bytes. rewrite length_app.
  destruct (NUM_LEDS <? k).
  - destruct flash; reflexivity.
  - rewrite <- (map_map (fun j => nth j tbl (0, 0, 0)) wire).
    rewrite length_app, length_concat_wire, length_map, length_seq.
    change (length clear_bytes) with 128%nat.
    change (length start_frame) with 4%nat. lia.
Qed.


Lemma frames_ok_app (a b : list Z) :
  frames_ok a = true -> frames_ok (a ++ b) = frames_ok b.
Proof.
  assert (G : forall n a', (length a' <= n)%nat -> frames_ok a' = true ->
                           frames_ok (a' ++ b) = frames_ok b).
  { induction n as [|n IH]; intros a' Hlen Ha.
    - destruct a'; [reflexivity | cbn in Hlen; lia].
    - destruct a' as [|h [|x [|g [|r rest]]]]; try discriminate Ha;
        [reflexivity|].
      cbn [frames_ok] in Ha. apply andb_true_iff in Ha. destruct Ha as [Hf Hr].
      cbn [app frames_ok]. rewrite Hf. cbn [andb].
      apply IH; [cbn [length] in Hlen; lia | exact Hr]. }
  apply (G (length a)). reflexivity.
Qed.

Lemma is_byte_u8 (x : Z) : is_byte (u8 x) = true.
Proof.
  unfold is_byte. pose proof (u8_range x) as H.
  destruct (Z.leb_spec 0 (u8 x)); [|lia].
  destruct (Z.ltb_spec (u8 x) 256); [reflexivity | lia].
Qed.

Lemma frames_ok_wire (cs : list color) (rest : list Z) :
  frames_ok (concat (map wire cs) ++ rest) = frames_ok rest.
Proof.
  induction cs as [|[[r g] b] cs IH]; [reflexivity|].
  cbn [map concat wire app frames_ok].
  change (u8 (224 + BRIGHTNESS)) with 227.
  rewrite !is_byte_u8, IH. reflexivity.
Qed.

Lemma frames_ok_render (tbl : list color) (flash : bool) (k : Z) :
  frames_ok (render_bytes tbl flash k) = true.
Proof.
  unfold render_bytes. rewrite frames_ok_app by reflexivity.
  destruct (NUM_LEDS <? k); [destruct flash; reflexivity|].
  rewrite <- (map_map (fun j => nth j tbl (0, 0, 0)) wire).
  cbn [start_frame app frames_ok Z.eqb andb orb].
  rewrite <- (app_nil_r (concat _)). apply frames_ok_wire.
Qed.

Lemma gear_update_display (s : state) :
  1 <= gearIndex s <= 6 ->
  (gearIndex (gear_update s) = gearIndex s /\ P4OUT (gear_update s) = P4OUT s)
  \/ P4OUT (gear_update s) = at_index gearON (gearIndex (gear_update s)).
Proof.
  intros Hg.
  destruct (Z.eq_dec (gearIndex (gear_update s)) (gearIndex s)) as [E|N].
  - left. split; [exact E|]. revert E. unfold gear_update.
    destruct (up_flag s && (gearIndex s <? 6)) eqn:Eu.
    { cbn [gearIndex set_gearIndex set_P4OUT set_up_flag].
      rewrite u8_small by lia. lia. }
    destruct (down_flag s && (1 <? gearIndex s)) eqn:Ed.
    { cbn [gearIndex set_gearIndex set_P4OUT set_down_flag].
      rewrite u8_small by lia. lia. }
    reflexivity.
  - right. apply gear_update_shows; assumption.
Qed.

Lemma step_ok (e : event) (s s' : state) :
  state_ok s -> step e s = Some s' -> state_ok s'.
Proof.
  unfold state_ok.
  intros (Htbl & Hifg & Hled & Hrpm & Hcap & Hg & Hdisp & Hfr) Hstep.
  destruct e as [lines|ccr| |]; cbn [step] in Hstep.
  - assert (Es : s' = PORT6_IRQHandler (set_P6IFG (Z.lor (P6IFG s) (u8 lines)) s))
      by congruence.
    rewrite Es. unfold PORT6_IRQHandler. cbn [P6IFG set_P6IFG].
    destruct (bit_set _ BIT0);
      [|destruct (bit_set _ BIT1);
        [|destruct (bit_set _ BIT4); [|destruct (bit_set _ BIT5)]]];
      cbn [lightstrip P6IFG ledsON rpm rpmCaptureValue gearIndex P4OUT TXBUF
             set_P6IFG set_P8OUT set_up_flag set_down_flag];
      rewrite u8_clear_all; auto 10.
  - assert (Es : s' = TA0_0_IRQHandler ccr s) by congruence.
    rewrite Es. unfold TA0_0_IRQHandler.
    cbn [lightstrip P6IFG ledsON rpm rpmCaptureValue gearIndex P4OUT TXBUF
           set_LSflag set_rpmCaptureValue].
    pose proof (u16_range ccr). auto 10.
  - assert (Es : s' = TA1_0_IRQHandler s) by congruence.
    rewrite Es. unfold TA1_0_IRQHandler.
    cbn [lightstrip P6IFG ledsON rpm rpmCaptureValue gearIndex P4OUT TXBUF
           set_LSflash_flag].
    auto 10.
  - unfold main_loop_body in Hstep.
    assert (H1 : exists s1, s' = gear_update s1 /\
              lightstrip s1 = LedZoneTable /\ P6IFG s1 = 0 /\
              ledsON s1 = litCount (rpm s1) /\ 0 <= rpm s1 <= 65535 /\
              0 <= rpmCaptureValue s1 <= 65535 /\ gearIndex s1 = gearIndex s /\
              P4OUT s1 = P4OUT s /\ frames_ok (rev (TXBUF s1)) = true).
    { destruct (LSflag s).
      - destruct (rpmtoLS s) as [s0|] eqn:E0; [|discriminate].
        cbn [bind] in Hstep. exists (set_LSflag false s0).
        split; [congruence|].
        destruct (rpmtoLS_effect s s0 E0) as (r & n & _ & Hr & _ & ->).
        cbn [lightstrip P6IFG ledsON rpm rpmCaptureValue gearIndex P4OUT TXBUF
               set_LSflag set_i set_TXBUF set_ledsON set_rpm].
        repeat split; try assumption; try lia.
        rewrite rev_app_distr, rev_involutive, frames_ok_app by assumption.
        apply frames_ok_render.
      - cbn [bind] in Hstep. exists s. split; [congruence|]. auto 10. }
    destruct H1 as (s1 & Es & Htbl1 & Hifg1 & Hled1 & Hrpm1 & Hcap1 & Hg1 & Hp1 & Hfr1).
    assert (Hgr : 1 <= gearIndex s1 <= 6) by lia.
    destruct (gear_update_spec s1 Hgr) as [Hg' _].
    pose proof (gear_update_display s1 Hgr) as Hd.
    destruct (gear_update_effect s1) as (g & p & u & d & Eg).
    rewrite Es. rewrite Eg in *.
    cbn [lightstrip P6IFG ledsON rpm rpmCaptureValue gearIndex P4OUT TXBUF
           set_down_flag set_up_flag set_P4OUT set_gearIndex] in *.
    repeat split; try assumption; try lia.
    destruct Hd as [[E1 E2]|Hd]; [|left; exact Hd].
    rewrite E1, E2, Hg1, Hp1. exact Hdisp.
Qed.

Lemma init_state_ok (p8 : Z) : state_ok (init_state p8).
Proof.
  unfold state_ok. cbn. repeat split; try lia; try discriminate.
Qed.

Lemma run_ok (evs : list event) :
  forall s s', state_ok s -> run evs s = Some s' -> state_ok s'.
Proof.
  induction evs as [|e evs IH]; intros s s' Hs Hrun.
  - inversion Hrun; subst. exact Hs.
  - cbn [run] in Hrun. destruct (step e s) as [s1|] eqn:E; [|discriminate].
    cbn [bind] in Hrun. exact (IH s1 s' (step_ok e s s1 Hs E) Hrun).
Qed.

(** ** What holds in every state the controller reaches *)

(** X5: along every run from the initial state the colour table is the
    one loaded at start-up (nothing writes it again), no port-6 flag is
    left pending between events, the LED count is the one computed from
    the stored speed, and speed, count and capture stay within 0..65535,
    0..187 and 0..65535. *)
Theorem reachable_data_consistent (p8 : Z) (evs : list event) (s : state) :
  run evs (init_state p8) = Some s ->
  lightstrip s = LedZoneTable /\
  P6IFG s = 0 /\
  ledsON s = litCount (rpm s) /\
  0 <= rpm s <= 65535 /\
  0 <= ledsON s <= 187 /\
  0 <= rpmCaptureValue s <= 65535.
Proof.
  intros Hrun.
  destruct (run_ok evs _ s (init_state_ok p8) Hrun)
    as (Htbl & Hifg & Hled & Hrpm & Hcap & _).
  repeat split; try assumption; try lia.
  - rewrite Hled. apply u8_range.
  - rewrite Hled, litCount_div by assumption.
    change NUM_LEDS with 30. change (MAX_RPM - 1500) with 10500.
    apply Z.lt_succ_r. apply Z.div_lt_upper_bound; lia.
Qed.

Lemma reachable_data_consistent_witness :
  let evs := [TachCapture 937; MainIteration; Port6Edge BIT0] in
  exists s, run evs (init_state 0) = Some s /\ ledsON s = litCount (rpm s).
Proof.
  intros evs. destruct (run evs (init_state 0)) as [s|] eqn:E.
  - exists s. split; [reflexivity|].
    exact (proj1 (proj2 (proj2 (reachable_data_consistent 0 evs s E)))).
  - exfalso.
    destruct (run_defined evs (init_state 0)) as [s' Hs']; try reflexivity.
    + cbn; lia.
    + congruence.
Defined.

(** X6: the 7-segment port always agrees with the gear index.  Along every
    run from the initial state the port holds exactly the segment pattern
    of the current gear, or is still blank with the gear at 1 when no
    shift has been shown yet; the patterns of gears 1..6 are pairwise
    different and none is blank, so the port value determines the gear. *)
Theorem display_matches_gear (p8 : Z) (evs : list event) (s : state) :
  run evs (init_state p8) = Some s ->
  (P4OUT s = at_index gearON (gearIndex s) \/ (P4OUT s = 0 /\ gearIndex s = 1)) /\
  NoDup (0 :: map (at_index gearON) [1; 2; 3; 4; 5; 6]).
Proof.
  intros Hrun.
  destruct (run_ok evs _ s (init_state_ok p8) Hrun)
    as (_ & _ & _ & _ & _ & _ & Hdisp & _).
  split; [exact Hdisp|].
  cbn. repeat constructor; cbn; intuition discriminate.
Qed.

Lemma display_matches_gear_witness :
  let evs := [Port6Edge BIT4; MainIteration; Port6Edge BIT4; MainIteration] in
  exists s, run evs (init_state 0) = Some s /\
            (P4OUT s = at_index gearON (gearIndex s) \/
             (P4OUT s = 0 /\ gearIndex s = 1)).
Proof.
  intros evs. destruct (run evs (init_state 0)) as [s|] eqn:E.
  - exists s. split; [reflexivity|].
    exact (proj1 (display_matches_gear 0 evs s E)).
  - exfalso.
    destruct (run_defined evs (init_state 0)) as [s' Hs']; try reflexivity.
    + cbn; lia.
    + congruence.
Defined.

(** X7: everything the controller ever sends to the strip is well framed.
    Along every run from the initial state the bytes sent so far split
    into whole four-byte frames, each the all-zero start frame or an LED
    frame with header 224 or 227 and three byte-sized colour values. *)
Theorem spi_stream_framed (p8 : Z) (evs : list event) (s : state) :
  run evs (init_state p8) = Some s ->
  frames_ok (rev (TXBUF s)) = true /\
  (Z.of_nat (length (TXBUF s)) mod 4 = 0).
Proof.
  intros Hrun.
  destruct (run_ok evs _ s (init_state_ok p8) Hrun)
    as (_ & _ & _ & _ & _ & _ & _ & Hfr).
  split; [exact Hfr|].
  rewrite <- length_rev. revert Hfr. generalize (rev (TXBUF s)) as l.
  assert (G : forall n l, (length l <= n)%nat -> frames_ok l = true ->
                          Z.of_nat (length l) mod 4 = 0).
  { induction n as [|n IH]; intros l Hlen Hl.
    - destruct l; [reflexivity | cbn in Hlen; lia].
    - destruct l as [|h [|x [|g [|r rest]]]]; try discriminate Hl;
        [reflexivity|].
      cbn [frames_ok] in Hl. apply andb_true_iff in Hl. destruct Hl as [_ Hr].
      cbn [length] in *.
      replace (Z.of_nat (S (S (S (S (length rest))))))
        with (Z.of_nat (length rest) + 1 * 4) by lia.
      rewrite Z.mod_add by lia. apply IH; [lia | exact Hr]. }
  intros l. apply (G (length l)). reflexivity.
Qed.

Lemma spi_stream_framed_witness :
  let evs := [TachCapture 500; FlashTick; MainIteration] in
  exists s, run evs (init_state 0) = Some s /\
            frames_ok (rev (TXBUF s)) = true.
Proof.
  intros evs. destruct (run evs (init_state 0)) as [s|] eqn:E.
  - exists s. split; [reflexivity|].
    exact (proj1 (spi_stream_framed 0 evs s E)).
  - exfalso.
    destruct (run_defined evs (init_state 0)) as [s' Hs']; try reflexivity.
    + cbn; lia.
    + congruence.
Defined.

(** ** The main loop and the renderer, end to end *)

Lemma main_loop_shape (s s' : state) :
  main_loop_body s = Some s' ->
  exists g p u d,
    if LSflag s then
      exists r n,
        rpm_of_capture (rpmCaptureValue s) = Some r /\
        s' = set_down_flag d (set_up_flag u (set_P4OUT p (set_gearIndex g
               (set_LSflag false
                  (set_i n
                     (set_TXBUF
                        (rev (render_bytes (lightstrip s) (LSflash_flag s)
                                (litCount r)) ++ TXBUF s)
                        (set_ledsON (litCount r) (set_rpm r s))))))))
    else s' = set_down_flag d (set_up_flag u (set_P4OUT p (set_gearIndex g s))).
Proof.
  unfold main_loop_body. intros H.
  destruct (LSflag s) eqn:Hf.
  - destruct (rpmtoLS s) as [s0|] eqn:E0; [|discriminate].
    cbn [bind] in H.
    assert (Es : s' = gear_update (set_LSflag false s0)).
    { symmetry.
      exact (f_equal (fun o => match o with Some x => x | None => s' end) H). }
    destruct (rpmtoLS_effect s s0 E0) as (r & n & Hr & _ & _ & E).
    destruct (gear_update_effect (set_LSflag false s0)) as (g & p & u & d & Eg).
    exists g, p, u, d, r, n. split; [exact Hr|].
    rewrite Es, Eg, E. reflexivity.
  - cbn [bind] in H.
    assert (Es : s' = gear_update s).
    { symmetry.
      exact (f_equal (fun o => match o with Some x => x | None => s' end) H). }
    destruct (gear_update_effect s) as (g & p & u & d & Eg).
    exists g, p, u, d. rewrite Es. exact Eg.
Qed.

(** X8: one pass of the main loop renders at most once and only on demand.
    If the pass returns, the sample flag is clear afterwards and the relay
    port, the port-6 flags, the colour table, the flash flag and the
    capture are untouched.  With the sample flag set on entry the speed is
    converted from the capture and exactly the frames of one rendering
    are added to the output; with the flag clear nothing is sent and
    speed, LED count and loop counter keep their values. *)
Theorem main_loop_renders_on_demand (s s' : state) :
  main_loop_body s = Some s' ->
  LSflag s' = false /\
  P8OUT s' = P8OUT s /\ P6IFG s' = P6IFG s /\
  lightstrip s' = lightstrip s /\ LSflash_flag s' = LSflash_flag s /\
  rpmCaptureValue s' = rpmCaptureValue s /\
  (if LSflag s then
     exists r,
       rpm_of_capture (rpmCaptureValue s) = Some r /\
       rpm s' = r /\ ledsON s' = litCount r /\
       rev (TXBUF s') = rev (TXBUF s) ++
                        render_bytes (lightstrip s) (LSflash_flag s) (litCount r)
   else
     rpm s' = rpm s /\ ledsON s' = ledsON s /\ TXBUF s' = TXBUF s /\ i s' = i s).
Proof.
  intros H. destruct (main_loop_shape s s' H) as (g & p & u & d & Hs).
  destruct (LSflag s) eqn:Hf.
  - destruct Hs as (r & n & Hr & ->).
    cbn [LSflag P8OUT P6IFG lightstrip LSflash_flag rpmCaptureValue rpm ledsON
           TXBUF i set_down_flag set_up_flag set_P4OUT set_gearIndex set_LSflag
           set_i set_TXBUF set_ledsON set_rpm].
    repeat split. exists r. repeat split; try assumption.
    rewrite rev_app_distr, rev_involutive. reflexivity.
  - rewrite Hs.
    cbn [LSflag P8OUT P6IFG lightstrip LSflash_flag rpmCaptureValue rpm ledsON
           TXBUF i set_down_flag set_up_flag set_P4OUT set_gearIndex].
    repeat split. exact Hf.
Qed.

Lemma main_loop_renders_on_demand_witness :
  let s := TA0_0_IRQHandler 937 (init_state 0) in
  exists s', main_loop_body s = Some s' /\ LSflag s' = false.
Proof.
  intros s.
  destruct (run_defined [MainIteration] s) as [s' Hs']; try reflexivity.
  - cbn; lia.
  - change (run [MainIteration] s)
      with (s1 <- main_loop_body s ;; Some s1) in Hs'.
    destruct (main_loop_body s) as [s1|] eqn:E;
      [|cbn [bind] in Hs'; discriminate Hs'].
    exists s1. split; [reflexivity|].
    exact (proj1 (main_loop_renders_on_demand s s1 E)).
Defined.

(** X9: a capture of zero blanks the strip.  Whatever the colour table and
    the flash flag, the renderer returns with speed 0 and LED count 0,
    having sent the blanking sequence and one start frame and no LED
    frame; a 30-LED strip reading these bytes ends with every LED off. *)
Theorem zero_capture_blanks (s : state) :
  rpmCaptureValue s = 0 ->
  exists s',
    rpmtoLS s = Some s' /\ rpm s' = 0 /\ ledsON s' = 0 /\
    rev (TXBUF s') = rev (TXBUF s) ++ clear_bytes ++ start_frame /\
    forall st j, length (leds st) = 30%nat ->
      nth j (leds (strip_feed (clear_bytes ++ start_frame) st)) (0, 0, 0)
      = (0, 0, 0).
Proof.
  intros H0. unfold rpmtoLS. rewrite H0.
  change (rpm_of_capture 0) with (Some 0). cbn [bind].
  destruct (render_effect (set_rpm 0 s)) as (n & _ & ->).
  eexists. split; [reflexivity|].
  cbn [rpm ledsON TXBUF lightstrip LSflash_flag set_i set_TXBUF set_ledsON set_rpm].
  change (litCount 0) with 0.
  assert (Hb : render_bytes (lightstrip s) (LSflash_flag s) 0
               = clear_bytes ++ start_frame).
  { unfold render_bytes. change (NUM_LEDS <? 0) with false.
    cbn [Z.to_nat seq map concat]. rewrite app_nil_r. reflexivity. }
  rewrite Hb. repeat split.
  - rewrite rev_app_distr, rev_involutive. reflexivity.
  - intros st j Hlen.
    destruct (strip_after_clear start_frame st) as (st' & -> & _ & Hoff).
    change (strip_feed start_frame st') with (mkStrip (leds st') 0).
    cbn [leds]. apply Hoff. lia.
Qed.

Lemma zero_capture_blanks_witness :
  exists s', rpmtoLS (init_state 0) = Some s' /\ ledsON s' = 0.
Proof.
  destruct (zero_capture_blanks (init_state 0)) as (s' & H1 & _ & H2 & _).
  - reflexivity.
  - exists s'. split; assumption.
Defined.

(** X10: each LED stands for 350 rpm.  For every 16-bit speed the LED
    count is the speed divided by 350, rounded down; the 8-bit store
    never wraps, the count being at most 187; so the count is [k] exactly
    for speeds from [350 * k] to [350 * k + 349]. *)
Theorem led_count_per_350 (v : Z) :
  0 <= v <= 65535 ->
  litCount v = v / 350 /\
  0 <= litCount v <= 187 /\
  forall k, litCount v = k <-> 350 * k <= v < 350 * (k + 1).
Proof.
  intros Hv.
  assert (E : litCount v = v / 350).
  { rewrite litCount_div by assumption.
    change NUM_LEDS with 30. change (MAX_RPM - 1500) with (350 * 30).
    apply Z.div_mul_cancel_r; lia. }
  rewrite E.
  pose proof (Z.div_mod v 350 ltac:(lia)).
  pose proof (Z.mod_pos_bound v 350 ltac:(lia)).
  split; [reflexivity|]. split; [lia|]. intros k. lia.
Qed.

Lemma led_count_per_350_witness : litCount 6003 = 17.
Proof.
  apply (proj2 (proj2 (led_count_per_350 6003 ltac:(lia)))). lia.
Defined.

(** X11: from tachometer period to display mode.  For a capture of [t]
    timer ticks, 86 to 65535, the renderer returns with speed
    5625000 / t and LED count 5625000 / (350 * t), both rounded down.
    The strip is in shift-flash mode exactly for t <= 518, shows the full
    30-LED bar without flashing exactly for 519 <= t <= 535, and shows no
    LED at all exactly for t >= 16072. *)
Theorem capture_to_mode (s : state) (t : Z) :
  rpmCaptureValue s = t -> 86 <= t <= 65535 ->
  exists s',
    rpmtoLS s = Some s' /\
    rpm s' = 5625000 / t /\
    ledsON s' = 5625000 / (350 * t) /\
    (NUM_LEDS < ledsON s' <-> t <= 518) /\
    (ledsON s' = NUM_LEDS <-> 519 <= t <= 535) /\
    (ledsON s' = 0 <-> 16072 <= t).
Proof.
  intros Ht Hr. unfold rpmtoLS. rewrite Ht, rpm_of_capture_floor by assumption.
  cbn [bind].
  destruct (render_effect (set_rpm (45000000 / (t * 8)) s)) as (n & _ & ->).
  eexists. split; [reflexivity|].
  cbn [rpm ledsON set_i set_TXBUF set_ledsON set_rpm].
  assert (E1 : 45000000 / (t * 8) = 5625000 / t).
  { change 45000000 with (5625000 * 8). apply Z.div_mul_cancel_r; lia. }
  rewrite E1.
  assert (Hq : 0 <= 5625000 / t <= 65535).
  { split; [apply Z.div_pos; lia|].
    apply Z.lt_succ_r. apply Z.div_lt_upper_bound; lia. }
  assert (E2 : litCount (5625000 / t) = 5625000 / (350 * t)).
  { rewrite litCount_div by assumption.
    change NUM_LEDS with 30. change (MAX_RPM - 1500) with (350 * 30).
    rewrite Z.div_mul_cancel_r by lia.
    rewrite Z.div_div by lia. rewrite (Z.mul_comm t 350). reflexivity. }
  rewrite E2. change NUM_LEDS with 30.
  pose proof (Z.div_mod 5625000 (350 * t) ltac:(lia)).
  pose proof (Z.mod_pos_bound 5625000 (350 * t) ltac:(lia)).
  repeat split; try reflexivity; intros; nia.
Qed.

Lemma capture_to_mode_witness :
  exists s', rpmtoLS (TA0_0_IRQHandler 937 (init_state 0)) = Some s' /\
             rpm s' = 5625000 / 937.
Proof.
  destruct (capture_to_mode (TA0_0_IRQHandler 937 (init_state 0)) 937)
    as (s' & H1 & H2 & _).
  - reflexivity.
  - lia.
  - exists s'. split; assumption.
Defined.

(** X12: a longer tachometer period never gives a higher speed.  For
    captures from 86 to 65535 ticks the conversion always succeeds, the
    speed is non-increasing in the capture, and it lies between 85 and
    65406 rpm. *)
Theorem rpm_monotone_in_capture (t1 t2 : Z) :
  86 <= t1 -> t1 <= t2 -> t2 <= 65535 ->
  exists r1 r2,
    rpm_of_capture t1 = Some r1 /\ rpm_of_capture t2 = Some r2 /\
    r2 <= r1 /\ 85 <= r2 /\ r1 <= 65406.
Proof.
  intros H1 H12 H2.
  exists (45000000 / (t1 * 8)), (45000000 / (t2 * 8)).
  rewrite !rpm_of_capture_floor by lia.
  repeat split.
  - apply Z.div_le_compat_l; lia.
  - apply Z.div_le_lower_bound; lia.
  - apply Z.lt_succ_r. apply Z.div_lt_upper_bound; lia.
Qed.

Lemma rpm_monotone_in_capture_witness :
  exists r1 r2,
    rpm_of_capture 500 = Some r1 /\ rpm_of_capture 937 = Some r2 /\ r2 <= r1.
Proof.
  destruct (rpm_monotone_in_capture 500 937) as (r1 & r2 & A & B & C & _);
    try lia.
  exists r1, r2. repeat split; assumption.
Defined.

(** ** Confirmed shifts as the main loop sees them *)

Lemma run_upshift (s : state) :
  P6IFG s = 0 -> LSflag s = false ->
  run upshift s
  = Some (gear_update
            (set_P6IFG 0
               (set_up_flag true
                  (set_P8OUT (u8 (Z.land (P8OUT s) (Z.lnot 0x30))) s)))).
Proof.
  intros HP HL. unfold upshift. cbn [run step bind]. rewrite HP.
  unfold PORT6_IRQHandler. cbn [P6IFG set_P6IFG].
  change (bit_set (Z.lor 0 (u8 BIT4)) BIT0) with false.
  change (bit_set (Z.lor 0 (u8 BIT4)) BIT1) with false.
  change (bit_set (Z.lor 0 (u8 BIT4)) BIT4) with true.
  cbv beta iota zeta. cbn [P6IFG P8OUT set_P6IFG set_up_flag set_P8OUT].
  rewrite u8_clear_all. unfold main_loop_body.
  cbn [LSflag set_P6IFG set_up_flag set_P8OUT]. rewrite HL. reflexivity.
Qed.

Lemma run_downshift (s : state) :
  P6IFG s = 0 -> LSflag s = false ->
  run downshift s
  = Some (gear_update
            (set_P6IFG 0
               (set_down_flag true
                  (set_P8OUT (u8 (Z.land (P8OUT s) (Z.lnot 0x30))) s)))).
Proof.
  intros HP HL. unfold downshift. cbn [run step bind]. rewrite HP.
  unfold PORT6_IRQHandler. cbn [P6IFG set_P6IFG].
  change (bit_set (Z.lor 0 (u8 BIT5)) BIT0) with false.
  change (bit_set (Z.lor 0 (u8 BIT5)) BIT1) with false.
  change (bit_set (Z.lor 0 (u8 BIT5)) BIT4) with false.
  change (bit_set (Z.lor 0 (u8 BIT5)) BIT5) with true.
  cbv beta iota zeta. cbn [P6IFG P8OUT set_P6IFG set_down_flag set_P8OUT].
  rewrite u8_clear_all. unfold main_loop_body.
  cbn [LSflag set_P6IFG set_down_flag set_P8OUT]. rewrite HL. reflexivity.
Qed.

Lemma upshift_step (s : state) :
  P6IFG s = 0 -> LSflag s = false -> down_flag s = false ->
  1 <= gearIndex s <= 6 ->
  exists s1,
    run upshift s = Some s1 /\
    P6IFG s1 = 0 /\ LSflag s1 = false /\ down_flag s1 = false /\
    relay_of (P8OUT s1) = Some Idle /\ TXBUF s1 = TXBUF s /\
    ((gearIndex s < 6 /\ gearIndex s1 = gearIndex s + 1 /\ up_flag s1 = false /\
      P4OUT s1 = at_index gearON (gearIndex s + 1)) \/
     (gearIndex s = 6 /\ gearIndex s1 = 6 /\ up_flag s1 = true /\
      P4OUT s1 = P4OUT s)).
Proof.
  intros HP HL Hd Hg. eexists. split; [apply run_upshift; assumption|].
  unfold gear_update.
  cbn [up_flag down_flag gearIndex set_P6IFG set_up_flag set_P8OUT andb].
  destruct (Z.ltb_spec (gearIndex s) 6) as [Hlt|Hge].
  - cbn [P6IFG LSflag down_flag up_flag gearIndex P4OUT P8OUT TXBUF
           set_P6IFG set_up_flag set_P8OUT set_gearIndex set_P4OUT].
    rewrite relay_after_off, (u8_small (gearIndex s + 1)) by lia.
    rewrite gear_display_exact by lia.
    repeat split; try assumption. left. repeat split. exact Hlt.
  - rewrite Hd. cbn [andb].
    cbn [P6IFG LSflag down_flag up_flag gearIndex P4OUT P8OUT TXBUF
           set_P6IFG set_up_flag set_P8OUT].
    rewrite relay_after_off.
    repeat split; try assumption. right. repeat split; lia.
Qed.

Lemma downshift_step (s : state) :
  P6IFG s = 0 -> LSflag s = false -> up_flag s = false ->
  1 <= gearIndex s <= 6 ->
  exists s1,
    run downshift s = Some s1 /\
    P6IFG s1 = 0 /\ LSflag s1 = false /\ up_flag s1 = false /\
    relay_of (P8OUT s1) = Some Idle /\ TXBUF s1 = TXBUF s /\
    ((1 < gearIndex s /\ gearIndex s1 = gearIndex s - 1 /\ down_flag s1 = false /\
      P4OUT s1 = at_index gearON (gearIndex s - 1)) \/
     (gearIndex s = 1 /\ gearIndex s1 = 1 /\ down_flag s1 = true /\
      P4OUT s1 = P4OUT s)).
Proof.
  intros HP HL Hu Hg. eexists. split; [apply run_downshift; assumption|].
  unfold gear_update.
  cbn [up_flag down_flag gearIndex set_P6IFG set_down_flag set_P8OUT andb].
  rewrite Hu. cbn [andb].
  destruct (Z.ltb_spec 1 (gearIndex s)) as [Hlt|Hge].
  - cbn [P6IFG LSflag down_flag up_flag gearIndex P4OUT P8OUT TXBUF
           set_P6IFG set_down_flag set_P8OUT set_gearIndex set_P4OUT].
    rewrite relay_after_off, (u8_small (gearIndex s - 1)) by lia.
    rewrite gear_display_exact by lia.
    repeat split; try assumption. left. repeat split. exact Hlt.
  - cbn [P6IFG LSflag down_flag up_flag gearIndex P4OUT P8OUT TXBUF
           set_P6IFG set_down_flag set_P8OUT].
    rewrite relay_after_off.
    repeat split; try assumption. right. repeat split; lia.
Qed.

(** X13: a confirmed shift up followed by a confirmed shift down is a
    round trip, and so is down followed by up.  From a state with no
    request pending and no sample waiting, below the top gear the pair
    up, down returns to the same gear, and above the bottom gear so does
    the pair down, up; in both cases the display shows that gear, no
    request is left pending, both relays are released and nothing was
    sent to the strip. *)
Theorem shift_round_trip (s : state) :
  P6IFG s = 0 -> LSflag s = false ->
  up_flag s = false -> down_flag s = false ->
  1 <= gearIndex s <= 6 ->
  let back s2 :=
    gearIndex s2 = gearIndex s /\
    P4OUT s2 = at_index gearON (gearIndex s) /\
    up_flag s2 = false /\ down_flag s2 = false /\
    relay_of (P8OUT s2) = Some Idle /\ TXBUF s2 = TXBUF s in
  (gearIndex s < 6 ->
     exists s2, run (upshift ++ downshift) s = Some s2 /\ back s2) /\
  (1 < gearIndex s ->
     exists s2, run (downshift ++ upshift) s = Some s2 /\ back s2).
Proof.
  intros HP HL Hu Hd Hg back. subst back. split; intros Hlim.
  - destruct (upshift_step s HP HL Hd Hg)
      as (s1 & R1 & P1 & L1 & D1 & _ & T1 & [(_ & G1 & U1 & _)|(G1 & _)]);
      [|lia].
    destruct (downshift_step s1 P1 L1 U1 ltac:(lia))
      as (s2 & R2 & _ & _ & U2 & Y2 & T2 & [(_ & G2 & D2 & X2)|(G2 & _)]);
      [|lia].
    exists s2. rewrite run_app, R1. cbn [bind]. split; [exact R2|].
    rewrite G1 in G2, X2.
    replace (gearIndex s + 1 - 1) with (gearIndex s) in G2, X2 by lia.
    repeat split; try assumption. congruence.
  - destruct (downshift_step s HP HL Hu Hg)
      as (s1 & R1 & P1 & L1 & U1 & _ & T1 & [(_ & G1 & D1 & _)|(G1 & _)]);
      [|lia].
    destruct (upshift_step s1 P1 L1 D1 ltac:(lia))
      as (s2 & R2 & _ & _ & D2 & Y2 & T2 & [(_ & G2 & U2 & X2)|(G2 & _)]);
      [|lia].
    exists s2. rewrite run_app, R1. cbn [bind]. split; [exact R2|].
    rewrite G1 in G2, X2.
    replace (gearIndex s - 1 + 1) with (gearIndex s) in G2, X2 by lia.
    repeat split; try assumption. congruence.
Qed.

Lemma shift_round_trip_witness :
  exists s2, run (upshift ++ downshift) (init_state 0) = Some s2 /\
             gearIndex s2 = 1 /\ P4OUT s2 = at_index gearON 1.
Proof.
  destruct (shift_round_trip (init_state 0)) as [H _];
    try reflexivity; [cbn; lia|].
  destruct H as (s2 & R & G & X & _); [cbn; lia|].
  exists s2. repeat split; assumption.
Defined.

Lemma upshifts_from (n : nat) :
  forall s,
    P6IFG s = 0 -> LSflag s = false -> down_flag s = false ->
    1 <= gearIndex s <= 6 -> (up_flag s = true -> gearIndex s = 6) ->
    exists s',
      run (concat (repeat upshift n)) s = Some s' /\
      gearIndex s' = Z.min 6 (gearIndex s + Z.of_nat n) /\
      (up_flag s' = true <-> up_flag s = true \/ 6 < gearIndex s + Z.of_nat n).
Proof.
  induction n as [|n IH]; intros s HP HL Hd Hg Hu.
  - exists s. split; [reflexivity|]. split; [lia|].
    split; [auto|]. intros [H|H]; [exact H | lia].
  - cbn [repeat concat]. rewrite run_app.
    destruct (upshift_step s HP HL Hd Hg)
      as (s1 & R1 & P1 & L1 & D1 & _ & _ & Hc).
    rewrite R1. cbn [bind].
    destruct (IH s1 P1 L1 D1) as (s' & R & G & U).
    + destruct Hc as [(? & ? & _)|(? & ? & _)]; lia.
    + destruct Hc as [(_ & _ & E & _)|(_ & E & _)];
        [rewrite E; discriminate | intros _; exact E].
    + exists s'. split; [exact R|]. rewrite G, U.
      destruct Hc as [(Hlt & G1 & U1 & _)|(H6 & G1 & U1 & _)];
        rewrite G1, U1.
      * split; [lia|]. split.
        -- intros [H|H]; [discriminate H | right; lia].
        -- intros [H|H]; [specialize (Hu H); lia | right; lia].
      * split; [lia|]. split; [intros _; right; lia | intros _; left; reflexivity].
Qed.

Lemma downshifts_from (n : nat) :
  forall s,
    P6IFG s = 0 -> LSflag s = false -> up_flag s = false ->
    1 <= gearIndex s <= 6 -> (down_flag s = true -> gearIndex s = 1) ->
    exists s',
      run (concat (repeat downshift n)) s = Some s' /\
      gearIndex s' = Z.max 1 (gearIndex s - Z.of_nat n) /\
      (down_flag s' = true <-> down_flag s = true \/ gearIndex s - Z.of_nat n < 1).
Proof.
  induction n as [|n IH]; intros s HP HL Hu Hg Hd.
  - exists s. split; [reflexivity|]. split; [lia|].
    split; [auto|]. intros [H|H]; [exact H | lia].
  - cbn [repeat concat]. rewrite run_app.
    destruct (downshift_step s HP HL Hu Hg)
      as (s1 & R1 & P1 & L1 & U1 & _ & _ & Hc).
    rewrite R1. cbn [bind].
    destruct (IH s1 P1 L1 U1) as (s' & R & G & D).
    + destruct Hc as [(? & ? & _)|(? & ? & _)]; lia.
    + destruct Hc as [(_ & _ & E & _)|(_ & E & _)];
        [rewrite E; discriminate | intros _; exact E].
    + exists s'. split; [exact R|]. rewrite G, D.
      destruct Hc as [(Hlt & G1 & D1 & _)|(H1 & G1 & D1 & _)];
        rewrite G1, D1.
      * split; [lia|]. split.
        -- intros [H|H]; [discriminate H | right; lia].
        -- intros [H|H]; [specialize (Hd H); lia | right; lia].
      * split; [lia|]. split; [intros _; right; lia | intros _; left; reflexivity].
Qed.

(** X14: repeated confirmed shifts saturate at the ends of the gear range.
    From gear [g] with no request pending and no sample waiting, [n]
    confirmed up-shifts reach gear min 6 (g + n) and [n] confirmed
    down-shifts reach gear max 1 (g - n); a request is left pending
    afterwards exactly when the run went past the end of the range. *)
Theorem shifts_saturate (s : state) (n : nat) :
  P6IFG s = 0 -> LSflag s = false ->
  up_flag s = false -> down_flag s = false ->
  1 <= gearIndex s <= 6 ->
  (exists s',
     run (concat (repeat upshift n)) s = Some s' /\
     gearIndex s' = Z.min 6 (gearIndex s + Z.of_nat n) /\
     (up_flag s' = true <-> 6 < gearIndex s + Z.of_nat n)) /\
  (exists s',
     run (concat (repeat downshift n)) s = Some s' /\
     gearIndex s' = Z.max 1 (gearIndex s - Z.of_nat n) /\
     (down_flag s' = true <-> gearIndex s - Z.of_nat n < 1)).
Proof.
  intros HP HL Hu Hd Hg. split.
  - destruct (upshifts_from n s HP HL Hd Hg) as (s' & R & G & U).
    + rewrite Hu. discriminate.
    + exists s'. split; [exact R|]. split; [exact G|]. rewrite U, Hu.
      split; [intros [H|H]; [discriminate H | exact H] | auto].
  - destruct (downshifts_from n s HP HL Hu Hg) as (s' & R & G & D).
    + rewrite Hd. discriminate.
    + exists s'. split; [exact R|]. split; [exact G|]. rewrite D, Hd.
      split; [intros [H|H]; [discriminate H | exact H] | auto].
Qed.

Lemma shifts_saturate_witness :
  exists s', run (concat (repeat upshift 7)) (init_state 0) = Some s' /\
             gearIndex s' = 6.
Proof.
  destruct (shifts_saturate (init_state 0) 7) as [(s' & R & G & _) _];
    try reflexivity; [cbn; lia|].
  exists s'. split; [exact R | exact G].
Defined.

(** ** What drives the strip and the flash phase *)

Lemma length_render_bounds (tbl : list color) (flash : bool) (v : Z) :
  (132 <= length (render_bytes tbl flash (litCount v)) <= 256)%nat.
Proof.
  pose proof (length_render_bytes tbl flash (litCount v)) as H.
  assert (H0 : 0 <= litCount v) by apply u8_range.
  rewrite Z.max_r in H by assumption.
  destruct (Z.ltb_spec NUM_LEDS (litCount v)) as [|Hlo].
  - destruct flash; lia.
  - change NUM_LEDS with 30 in Hlo. lia.
Qed.

(** X15: the strip is written only in answer to tachometer captures, and
    captures are not queued.  Along any run the bytes already sent stay
    as they are and new ones are appended; the number of bytes appended
    lies between 132 and 256 times the number of passes of the main loop
    that found the sample flag set, so nothing is sent without such a
    pass; and the number of such passes is at most the number of captures
    in the run, plus one if a sample was waiting at the start. *)
Theorem strip_driven_by_captures (evs : list event) (s s' : state) :
  run evs s = Some s' ->
  exists out,
    rev (TXBUF s') = rev (TXBUF s) ++ out /\
    (132 * count_along renders evs s <= length out
     <= 256 * count_along renders evs s)%nat /\
    (count_along renders evs s
     <= count is_tach evs + (if LSflag s then 1 else 0))%nat.
Proof.
  revert s. induction evs as [|e evs IH]; intros s Hrun.
  - exists []. inversion Hrun; subst. rewrite app_nil_r.
    cbn [count_along length]. repeat split; lia.
  - cbn [run] in Hrun. destruct (step e s) as [s1|] eqn:E; [|discriminate].
    cbn [bind] in Hrun. destruct (IH s1 Hrun) as (out & Hout & Hlen & Hcnt).
    cbn [count_along]. rewrite E. unfold count in *. cbn [filter].
    destruct e as [lines|ccr| |]; cbn [step renders is_tach] in *.
    + assert (Es : s1 = PORT6_IRQHandler (set_P6IFG (Z.lor (P6IFG s) (u8 lines)) s))
        by congruence.
      assert (Hk : TXBUF s1 = TXBUF s /\ LSflag s1 = LSflag s).
      { rewrite Es. unfold PORT6_IRQHandler.
        destruct (bit_set _ BIT0);
          [|destruct (bit_set _ BIT1);
            [|destruct (bit_set _ BIT4); [|destruct (bit_set _ BIT5)]]];
          split; reflexivity. }
      destruct Hk as [Ht Hl]. rewrite Ht, Hl in *.
      exists out. repeat split; try assumption; lia.
    + assert (Es : s1 = TA0_0_IRQHandler ccr s) by congruence.
      assert (Hk : TXBUF s1 = TXBUF s /\ LSflag s1 = true)
        by (rewrite Es; split; reflexivity).
      destruct Hk as [Ht Hl]. rewrite Ht, Hl in *.
      exists out. cbn [length]. repeat split; try assumption; lia.
    + assert (Es : s1 = TA1_0_IRQHandler s) by congruence.
      assert (Hk : TXBUF s1 = TXBUF s /\ LSflag s1 = LSflag s)
        by (rewrite Es; split; reflexivity).
      destruct Hk as [Ht Hl]. rewrite Ht, Hl in *.
      exists out. repeat split; try assumption; lia.
    + destruct (main_loop_shape s s1 E) as (g & p & u & d & Hs).
      destruct (LSflag s) eqn:Hf.
      * destruct Hs as (r & n & _ & Es).
        assert (Hk : rev (TXBUF s1)
                     = rev (TXBUF s) ++
                       render_bytes (lightstrip s) (LSflash_flag s) (litCount r)
                     /\ LSflag s1 = false).
        { rewrite Es.
          cbn [TXBUF LSflag set_down_flag set_up_flag set_P4OUT set_gearIndex
                 set_LSflag set_i set_TXBUF set_ledsON set_rpm].
          rewrite rev_app_distr, rev_involutive. split; reflexivity. }
        destruct Hk as [Ht Hl]. rewrite Ht, Hl in *.
        pose proof (length_render_bounds (lightstrip s) (LSflash_flag s) r).
        exists (render_bytes (lightstrip s) (LSflash_flag s) (litCount r) ++ out).
        rewrite Hout, <- app_assoc, length_app.
        repeat split; lia.
      * assert (Hk : TXBUF s1 = TXBUF s /\ LSflag s1 = false).
        { rewrite Hs.
          cbn [TXBUF LSflag set_down_flag set_up_flag set_P4OUT set_gearIndex].
          split; [reflexivity | exact Hf]. }
        destruct Hk as [Ht Hl]. rewrite Ht, Hl in *.
        exists out. repeat split; try assumption; lia.
Qed.

Lemma strip_driven_by_captures_witness :
  let evs := [TachCapture 500; TachCapture 937; MainIteration; MainIteration] in
  exists s' out,
    run evs (init_state 0) = Some s' /\ rev (TXBUF s') = out /\
    (length out <= 256 * count_along renders evs (init_state 0))%nat.
Proof.
  intros evs. destruct (run evs (init_state 0)) as [s'|] eqn:E.
  - destruct (strip_driven_by_captures evs (init_state 0) s' E)
      as (out & H1 & H2 & _).
    exists s', out. split; [reflexivity|]. split; [exact H1 | apply H2].
  - exfalso.
    destruct (run_defined evs (init_state 0)) as [s' Hs']; try reflexivity.
    + cbn; lia.
    + congruence.
Defined.

(** X16: only the flash timer changes the flash phase.  Along any run the
    flash flag at the end is the flag at the start, inverted once for
    each flash-timer tick in the run: port-6 interrupts, captures and
    passes of the main loop leave it alone. *)
Theorem flash_phase_parity (evs : list event) (s s' : state) :
  run evs s = Some s' ->
  LSflash_flag s' = xorb (LSflash_flag s) (Nat.odd (count is_flash evs)).
Proof.
  revert s. induction evs as [|e evs IH]; intros s Hrun.
  - inversion Hrun; subst. cbn. rewrite xorb_false_r. reflexivity.
  - cbn [run] in Hrun. destruct (step e s) as [s1|] eqn:E; [|discriminate].
    cbn [bind] in Hrun. rewrite (IH s1 Hrun).
    unfold count. cbn [filter].
    destruct e as [lines|ccr| |]; cbn [step is_flash] in *.
    + assert (Es : s1 = PORT6_IRQHandler (set_P6IFG (Z.lor (P6IFG s) (u8 lines)) s))
        by congruence.
      rewrite Es. unfold PORT6_IRQHandler.
      destruct (bit_set _ BIT0);
        [|destruct (bit_set _ BIT1);
          [|destruct (bit_set _ BIT4); [|destruct (bit_set _ BIT5)]]];
        reflexivity.
    + assert (Es : s1 = TA0_0_IRQHandler ccr s) by congruence.
      rewrite Es. reflexivity.
    + assert (Es : s1 = TA1_0_IRQHandler s) by congruence.
      rewrite Es. cbn [length LSflash_flag TA1_0_IRQHandler set_LSflash_flag].
      rewrite Nat.odd_succ, <- Nat.negb_odd.
      destruct (LSflash_flag s), (Nat.odd (length (filter is_flash evs)));
        reflexivity.
    + destruct (main_loop_shape s s1 E) as (g & p & u & d & Hs).
      destruct (LSflag s).
      * destruct Hs as (r & n & _ & ->). reflexivity.
      * rewrite Hs. reflexivity.
Qed.

Lemma flash_phase_parity_witness :
  let evs := [FlashTick; TachCapture 500; MainIteration; FlashTick; FlashTick] in
  exists s', run evs (init_state 0) = Some s' /\ LSflash_flag s' = true.
Proof.
  intros evs. destruct (run evs (init_state 0)) as [s'|] eqn:E.
  - exists s'. split; [reflexivity|].
    rewrite (flash_phase_parity evs (init_state 0) s' E). reflexivity.
  - exfalso.
    destruct (run_defined evs (init_state 0)) as [s' Hs']; try reflexivity.
    + cbn; lia.
    + congruence.
Defined.

(** ** Start-up: the pins and the state [main] enters its loop with *)

Lemma u8_bits_eq (x y : Z) :
  (forall k, 0 <= k < 8 -> Z.testbit x k = Z.testbit y k) -> u8 x = u8 y.
Proof.
  intros H. unfold u8. change 256 with (2 ^ 8).
  apply Z.bits_inj'. intros k Hk. destruct (Z.ltb_spec k 8).
  - rewrite !Z.mod_pow2_bits_low by lia. apply H. lia.
  - rewrite !Z.mod_pow2_bits_high by lia. reflexivity.
Qed.

Ltac each_bit k Hk :=
  let H := fresh in
  assert (H : k = 0 \/ k = 1 \/ k = 2 \/ k = 3 \/
              k = 4 \/ k = 5 \/ k = 6 \/ k = 7) by lia;
  clear Hk;
  destruct H as [->|[->|[->|[->|[->|[->|[->| ->]]]]]]].

Lemma pinInit_formula (rf : Pins.regs) (r : Pins.reg) :
  Pins.pinInit rf r
  = u8 (Z.land (Z.lor (rf r) (fst (Pins.forced r)))
               (Z.lnot (snd (Pins.forced r)))).
Proof.
  destruct r; lazy -[u8 Z.lor Z.land Z.lnot Z.testbit];
    apply u8_bits_eq; intros k Hk; bits; each_bit k Hk;
    match goal with
    | |- context [Z.testbit (rf ?r) ?k] => destruct (Z.testbit (rf r) k)
    end; reflexivity.
Qed.

(** X17: what [pinInit] leaves in each port register it writes.  Whatever
    the registers held before, each ends up with its old value, the bits
    of one mask set and the bits of another cleared; the two masks share
    no bit, so no pin is both set and cleared; every bit outside both
    masks keeps its value; and running [pinInit] a second time changes
    nothing. *)
Theorem pinInit_forces (rf : Pins.regs) (r : Pins.reg) :
  let hi := fst (Pins.forced r) in
  let lo := snd (Pins.forced r) in
  Pins.pinInit rf r = u8 (Z.land (Z.lor (rf r) hi) (Z.lnot lo)) /\
  Z.land hi lo = 0 /\
  (forall k, 0 <= k < 8 ->
     Z.testbit (Pins.pinInit rf r) k
     = if Z.testbit hi k then true
       else if Z.testbit lo k then false
       else Z.testbit (rf r) k) /\
  Pins.pinInit (Pins.pinInit rf) r = Pins.pinInit rf r.
Proof.
  intros hi lo. subst hi lo.
  split; [apply pinInit_formula|].
  split; [destruct r; reflexivity|].
  split.
  - intros k Hk. rewrite pinInit_formula. bits.
    destruct r; cbn [Pins.forced fst snd]; each_bit k Hk;
      match goal with
      | |- context [Z.testbit (rf ?r) ?k] => destruct (Z.testbit (rf r) k)
      end; reflexivity.
  - rewrite (pinInit_formula (Pins.pinInit rf)), (pinInit_formula rf).
    apply u8_bits_eq. intros k Hk. bits.
    destruct (Z.testbit (rf r) k), (Z.testbit (fst (Pins.forced r)) k),
      (Z.testbit (snd (Pins.forced r)) k); reflexivity.
Qed.

Lemma LedZoneTable_zone (j : nat) :
  (j < 30)%nat -> nth j LedZoneTable (0, 0, 0) = zone_color j.
Proof.
  intros Hj.
  do 30 (destruct j as [|j]; [reflexivity|]). lia.
Qed.

(** X18: the state in which [main] enters its loop.  Whatever the three
    ports hold at power-on, start-up returns; the display port and the
    port-6 flags are zero and the relay port has both relay bits and the
    third output bit clear, each as the full [pinInit] leaves that
    register; the gear is 1, no request or sample is pending, nothing has
    been sent, and the colour table has 30 entries: LEDs 0-17 green,
    18-23 yellow, 24-29 red. *)
Theorem startup_state (p4 p6 p8 : Z) (rf : Pins.regs) :
  rf Pins.P4OUT = u8 p4 -> rf Pins.P6IFG = u8 p6 -> rf Pins.P8OUT = u8 p8 ->
  exists s,
    main_startup (power_on p4 p6 p8) = Some s /\
    P4OUT s = Pins.pinInit rf Pins.P4OUT /\
    P6IFG s = Pins.pinInit rf Pins.P6IFG /\
    P8OUT s = Pins.pinInit rf Pins.P8OUT /\
    P4OUT s = 0 /\ P6IFG s = 0 /\
    relay_of (P8OUT s) = Some Idle /\ Z.testbit (P8OUT s) 6 = false /\
    gearIndex s = 1 /\ up_flag s = false /\ down_flag s = false /\
    LSflag s = false /\ TXBUF s = [] /\
    length (lightstrip s) = 30%nat /\
    forall j, (j < 30)%nat -> nth j (lightstrip s) (0, 0, 0) = zone_color j.
Proof.
  intros H4 H6 H8. exists (init_state p8).
  split; [apply main_startup_init|].
  rewrite !pinInit_formula, H4, H6, H8.
  cbn [P4OUT P6IFG P8OUT gearIndex up_flag down_flag LSflag TXBUF lightstrip
         init_state Pins.forced fst snd].
  rewrite !u8_clear_all.
  assert (E8 : u8 (Z.land (Z.lor (u8 p8) 0) (Z.lnot 0x70))
               = u8 (Z.land (u8 p8) (Z.lnot 0x70)))
    by (rewrite Z.lor_0_r; reflexivity).
  assert (Hidle : relay_of (u8 (Z.land (u8 p8) (Z.lnot 0x70))) = Some Idle).
  { rewrite relay_of_bits. bits.
    change (Z.testbit 0x70 4) with true. change (Z.testbit 0x70 5) with true.
    rewrite !andb_false_r. reflexivity. }
  assert (H6' : Z.testbit (u8 (Z.land (u8 p8) (Z.lnot 0x70))) 6 = false).
  { bits. change (Z.testbit 0x70 6) with true. apply andb_false_r. }
  repeat split; try assumption; try reflexivity.
  - symmetry. exact E8.
  - exact LedZoneTable_zone.
Qed.

Lemma startup_state_witness :
  exists s, main_startup (power_on 255 255 255) = Some s /\
            relay_of (P8OUT s) = Some Idle.
Proof.
  destruct (startup_state 255 255 255 (fun _ => 255))
    as (s & H & _ & _ & _ & _ & _ & Hr & _); try reflexivity.
  exists s. split; [exact H | exact Hr].
Defined.
